(** * Table extraction and numeric cleaning of [app.py]

    A shallow embedding of [scrape_companies_data] (app.py, lines 35-111) and
    of the minimum-revenue filter of [main] (lines 198-204), followed by the
    properties the specification states about them.

    What is modelled, and how:
    - Text is a [string], one [ascii] per code point; this covers every
      document whose characters lie in U+0000..U+00FF.  The character
      predicates below are Python's on that range.
    - The parsed page (the [soup]) is a tree of [PageElement]; the HTML
      parser and the HTTP client are libraries and enter as the input
      [response].
    - Regular expressions are a small syntax [regex] with a greedy,
      backtracking matcher; [re.sub] and [Series.str.extract] are built on it.
    - A [DataFrame] is its column labels and its rows of cells.
    - A number read from a text is the decimal value the text writes, or
      an infinity when that value is beyond the range of [float64].  The
      rounding of a finite value to [int64] or [float64] is not modelled:
      where a statement gives the value of a number, it is a whole number
      of fifteen digits at most, or 1.5, which both types hold as they are.
    - Exceptions and [st.error] messages are threaded by the monad [M]. *)

From Stdlib Require Import Bool Arith Lia List Ascii String ZArith QArith.
From Stdlib Require Import Sorted.
Import ListNotations.

Local Close Scope Q_scope.
Local Open Scope list_scope.
Local Open Scope string_scope.
Local Open Scope nat_scope.

(* ================================================================= *)
(** ** Characters *)

Module Char.

(** [str.isspace] of one character, which is also what [\s] matches and
    what [str.strip()] removes: U+0009..U+000D, U+001C..U+0020, U+0085 and
    U+00A0. *)
Definition isspace (c : ascii) : bool :=
  let n := nat_of_ascii c in
  ((9 <=? n) && (n <=? 13)) || ((28 <=? n) && (n <=? 32))
  || (n =? 133) || (n =? 160).

(** [\d]: the decimal digits; below U+0100 these are ['0'..'9']. *)
Definition isdigit (c : ascii) : bool :=
  let n := nat_of_ascii c in (48 <=? n) && (n <=? 57).

(** [str.lower] of one character: ['A'..'Z'], and U+00C0..U+00DE except
    the multiplication sign U+00D7, move up by 32. *)
Definition lower (c : ascii) : ascii :=
  let n := nat_of_ascii c in
  if ((65 <=? n) && (n <=? 90))
     || ((192 <=? n) && (n <=? 222) && negb (n =? 215))
  then ascii_of_nat (n + 32) else c.

(** The value of a decimal digit. *)
Definition digit_value (c : ascii) : Z := Z.of_nat (nat_of_ascii c - 48).

End Char.

(* ================================================================= *)
(** ** Python string operations *)

Module Str.

(** [s[n:]] *)
Fixpoint drop (n : nat) (s : string) : string :=
  match n, s with
  | S k, String _ s' => drop k s'
  | _, _ => s
  end.

(** [s[:n]] *)
Fixpoint take (n : nat) (s : string) : string :=
  match n, s with
  | S k, String c s' => String c (take k s')
  | _, _ => EmptyString
  end.

(** [s.lower()] *)
Fixpoint lower (s : string) : string :=
  match s with
  | EmptyString => EmptyString
  | String c s' => String (Char.lower c) (lower s')
  end.

(** [s.lstrip()] *)
Fixpoint lstrip (s : string) : string :=
  match s with
  | String c s' => if Char.isspace c then lstrip s' else s
  | EmptyString => EmptyString
  end.

(** [s.rstrip()] *)
Fixpoint rstrip (s : string) : string :=
  match s with
  | EmptyString => EmptyString
  | String c s' =>
      match rstrip s' with
      | EmptyString => if Char.isspace c then EmptyString else String c EmptyString
      | r => String c r
      end
  end.

(** [s.strip()] *)
Definition strip (s : string) : string := rstrip (lstrip s).

(** [sub in s] *)
Fixpoint contains (sub s : string) : bool :=
  String.prefix sub s
  || match s with
     | EmptyString => false
     | String _ s' => contains sub s'
     end.

(** The common scan of [str.replace] and [re.sub]: [at_head s] tells
    whether a match starts at the head of [s] and how many characters it
    takes.  Matches are taken leftmost first and do not overlap: [skip]
    counts the characters of the current match still to be passed over.
    Every pattern of the program takes at least one character; a match of
    no character is left alone. *)
Fixpoint scan (at_head : string -> option nat) (repl : string)
         (skip : nat) (s : string) : string :=
  match s with
  | EmptyString => EmptyString
  | String c s' =>
      match skip with
      | S k => scan at_head repl k s'
      | O =>
          match at_head s with
          | Some (S n) => repl ++ scan at_head repl n s'
          | _ => String c (scan at_head repl O s')
          end
      end
  end.

(** [s.replace(old, new)] *)
Definition replace (old new s : string) : string :=
  scan (fun t => if String.prefix old t then Some (String.length old) else None)
       new O s.

(** [all p s]: every character of [s] satisfies [p]. *)
Fixpoint all (p : ascii -> bool) (s : string) : bool :=
  match s with
  | EmptyString => true
  | String c s' => p c && all p s'
  end.

(** [stops p s]: [s] is empty or its first character fails [p]. *)
Definition stops (p : ascii -> bool) (s : string) : bool :=
  match s with
  | EmptyString => true
  | String c _ => negb (p c)
  end.

(** [any p s]: some character of [s] satisfies [p]. *)
Fixpoint any (p : ascii -> bool) (s : string) : bool :=
  match s with
  | EmptyString => false
  | String c s' => p c || any p s'
  end.

(** [s] without the occurrences of the character [c]. *)
Fixpoint remove (c : ascii) (s : string) : string :=
  match s with
  | EmptyString => EmptyString
  | String x s' => if Ascii.eqb x c then remove c s' else String x (remove c s')
  end.

(** [''.join(parts)] *)
Definition join (parts : list string) : string := String.concat EmptyString parts.

End Str.

(* ================================================================= *)
(** ** Regular expressions *)

Module Re.

Inductive regex : Type :=
| Chr (c : ascii)            (** an escaped literal, as in [\[] *)
| Cls (p : ascii -> bool)    (** a class, [\d] or [\s] *)
| Cat (r1 r2 : regex)        (** [r1 r2] *)
| Opt (r : regex)            (** [r?] *)
| Star (r : regex).          (** [r*] *)

(** [r+] *)
Definition Plus (r : regex) : regex := Cat r (Star r).

Definition digit : regex := Cls Char.isdigit.
Definition space : regex := Cls Char.isspace.

(** A greedy iteration bounded by [fuel]: one more round of [body] first,
    the continuation only when that fails.  A round has to consume
    something. *)
Fixpoint star_loop (body : string -> (string -> option nat) -> option nat)
         (k : string -> option nat) (fuel : nat) (s : string) : option nat :=
  match fuel with
  | O => k s
  | S f =>
      match body s (fun t => if String.length t <? String.length s
                             then star_loop body k f t else None) with
      | Some n => Some n
      | None => k s
      end
  end.

(** [matchk r s k]: match [r] at the head of [s], then [k] on what is
    left; the number of characters taken by [r] and by [k] together.
    Alternatives are tried in the order of the [re] module: the longest
    iteration first. *)
Fixpoint matchk (r : regex) (s : string) (k : string -> option nat)
  : option nat :=
  match r with
  | Chr c =>
      match s with
      | String x s' => if Ascii.eqb x c then option_map S (k s') else None
      | EmptyString => None
      end
  | Cls p =>
      match s with
      | String x s' => if p x then option_map S (k s') else None
      | EmptyString => None
      end
  | Cat r1 r2 => matchk r1 s (fun t => matchk r2 t k)
  | Opt r1 =>
      match matchk r1 s k with
      | Some n => Some n
      | None => k s
      end
  | Star r1 => star_loop (matchk r1) k (String.length s) s
  end.

(** The length of the match of [r] at the head of [s], if there is one. *)
Definition match_at (r : regex) (s : string) : option nat :=
  matchk r s (fun _ => Some O).

(** [re.search(r, s)], group 0: the text of the leftmost match. *)
Fixpoint search (r : regex) (s : string) : option string :=
  match match_at r s with
  | Some n => Some (Str.take n s)
  | None =>
      match s with
      | EmptyString => None
      | String _ s' => search r s'
      end
  end.

(** [re.sub(r, repl, s)] for a replacement without group references. *)
Definition sub (r : regex) (repl s : string) : string :=
  Str.scan (match_at r) repl O s.

End Re.

(* ================================================================= *)
(** ** The parsed page *)

Module Bs4.

(** An element of the tree built by [BeautifulSoup(text, 'html.parser')].
    Of a tag only its name and the values of its [class] attribute are
    kept, nothing else is read by the program. *)
#[warnings="-register-all"]
Inductive PageElement : Type :=
| NavigableString (text : string)
    (** text of the page *)
| OtherString (text : string)
    (** a comment, a doctype, the content of [script] or [style]: strings
        that [get_text] leaves out *)
| Tag (name : string) (class_ : list string) (contents : list PageElement).

(** [tag.descendants]: all elements below [tag], in document order. *)
Fixpoint descendants (e : PageElement) : list PageElement :=
  match e with
  | Tag _ _ contents => flat_map (fun c => c :: descendants c) contents
  | _ => []
  end.

(** Does the name of [e] occur in [names]? *)
Definition has_name (names : list string) (e : PageElement) : bool :=
  match e with
  | Tag n _ _ => existsb (String.eqb n) names
  | _ => false
  end.

(** The [class_=value] test: one of the classes is [value], or the whole
    attribute, its classes joined by one blank, is. *)
Definition has_class (value : string) (e : PageElement) : bool :=
  match e with
  | Tag _ cl _ =>
      existsb (String.eqb value) cl || String.eqb (String.concat " " cl) value
  | _ => false
  end.

(** [tag.find_all(names, class_=cls)] *)
Definition find_all (names : list string) (cls : option string)
           (e : PageElement) : list PageElement :=
  filter (fun d => has_name names d
                   && match cls with
                      | Some v => has_class v d
                      | None => true
                      end)
         (descendants e).

(** [tag.find(name)]: the first match, or [None]. *)
Definition find (name : string) (e : PageElement) : option PageElement :=
  hd_error (find_all [name] None e).

(** The strings that [get_text(strip=True)] collects: each text below
    [e], stripped, the empty ones left out. *)
Definition stripped_strings (e : PageElement) : list string :=
  flat_map (fun d => match d with
                     | NavigableString t =>
                         match Str.strip t with
                         | EmptyString => []
                         | t' => [t']
                         end
                     | _ => []
                     end)
           (descendants e).

(** [tag.get_text(strip=True)] *)
Definition get_text_strip (e : PageElement) : string :=
  Str.join (stripped_strings e).

End Bs4.

(* ================================================================= *)
(** ** Exceptions and the user interface *)

(** The exceptions that the modelled statements raise. *)
Inductive exn : Type :=
| RequestException (msg : string)   (** [requests.get], [raise_for_status] *)
| AttributeError (msg : string)
| KeyError (msg : string)
| ValueError (msg : string)
| TypeError (msg : string).

(** [str(e)] *)
Definition str_exn (e : exn) : string :=
  match e with
  | RequestException m | AttributeError m | KeyError m
  | ValueError m | TypeError m => m
  end.

(** The outcome of a statement.  [Unmodelled] marks the two pandas
    behaviours left out of the model: the text that [astype(str)] gives for
    a number, and the comparison of a frame with a number.  The program
    reaches neither: see [scrape_outcome_spec] and [filter_of_scraped]. *)
Inductive result (A : Type) : Type :=
| Return (a : A)
| Raise (e : exn)
| Unmodelled.

Arguments Return {A} a.
Arguments Raise {A} e.
Arguments Unmodelled {A}.

Definition bind {A B : Type} (m : result A) (f : A -> result B) : result B :=
  match m with
  | Return a => f a
  | Raise e => Raise e
  | Unmodelled => Unmodelled
  end.

Declare Scope result_scope.
Delimit Scope result_scope with result.
Notation "x <- m ;; f" := (bind m (fun x => f))
  (at level 61, m at next level, right associativity) : result_scope.
Local Open Scope result_scope.

(** [for x in xs: acc = step(acc, x)] *)
Fixpoint for_each {A B : Type} (step : A -> B -> result A) (xs : list B)
         (acc : A) : result A :=
  match xs with
  | [] => Return acc
  | x :: xs' => acc' <- step acc x ;; for_each step xs' acc'
  end.

(** [[f(x) for x in xs]] *)
Fixpoint map_result {A B : Type} (f : A -> result B) (xs : list A)
  : result (list B) :=
  match xs with
  | [] => Return []
  | x :: xs' => y <- f x ;; ys <- map_result f xs' ;; Return (y :: ys)
  end.

(** What the page shows: the messages of [st.error], oldest first. *)
Definition ui := list string.

(** A computation that may call [st.error] and may raise. *)
Definition M (A : Type) : Type := ui -> result A * ui.

Definition ret {A : Type} (a : A) : M A := fun u => (Return a, u).

Definition lift {A : Type} (r : result A) : M A := fun u => (r, u).

Definition bindM {A B : Type} (m : M A) (f : A -> M B) : M B :=
  fun u => match m u with
           | (Return a, u') => f a u'
           | (Raise e, u') => (Raise e, u')
           | (Unmodelled, u') => (Unmodelled, u')
           end.

(** [st.error(msg)] *)
Definition st_error (msg : string) : M unit := fun u => (Return tt, (u ++ [msg])%list).

(** [try: body except Exception as e: handler(e)] *)
Definition try_except {A : Type} (body : M A) (handler : exn -> M A) : M A :=
  fun u => match body u with
           | (Raise e, u') => handler e u'
           | other => other
           end.

Declare Scope M_scope.
Delimit Scope M_scope with M.
Notation "x <- m ;; f" := (bindM m (fun x => f))
  (at level 61, m at next level, right associativity) : M_scope.
Notation "m ;; f" := (bindM m (fun _ => f))
  (at level 61, right associativity) : M_scope.

(* ================================================================= *)
(** ** Frames of cells *)

Module Pd.

(** A value held by a frame: a Python string, a finite number, the
    missing value, or one of the two infinities of [float64].  [Num q] is
    the number whose decimal text was read as [q]: pandas holds [q] itself
    when [q] is whole and below [2 ** 53], and otherwise the [int64] or
    [float64] next to it, which depends on the other values of the column.
    No statement below relies on more than that. *)
Inductive cell : Type :=
| Str (s : string)
| Num (q : Q)
| NaN
| Inf
| NegInf.

(** A frame: its column labels, and its rows in index order. *)
Record DataFrame : Type := mkDataFrame {
  columns : list string;
  rows : list (list cell)
}.

(** [row + [None] * (n - len(row))] *)
Definition pad (n : nat) (row : list cell) : list cell :=
  row ++ repeat NaN (n - List.length row).

(** [pd.DataFrame(data, columns=headers)] for a list of lists: the frame
    is as wide as the longest list, shorter ones are filled with missing
    values, and that width has to be the number of labels. *)
Definition DataFrame_of (data : list (list string)) (headers : list string)
  : result DataFrame :=
  let width := fold_right Nat.max 0 (map (@List.length string) data) in
  match data with
  | [] => Return (mkDataFrame headers [])
  | _ :: _ =>
      if width =? List.length headers
      then Return (mkDataFrame headers
                     (map (fun r => pad width (map Str r)) data))
      else Raise (ValueError "columns passed do not match the data")
  end.

(** The positions of the label [col] among [labels], counted from [i]. *)
Fixpoint positions_from (i : nat) (col : string) (labels : list string)
  : list nat :=
  match labels with
  | [] => []
  | l :: ls =>
      if String.eqb l col then i :: positions_from (S i) col ls
      else positions_from (S i) col ls
  end.

Definition positions (col : string) (df : DataFrame) : list nat :=
  positions_from 0 col (columns df).

(** [df[col]] where a [Series] is needed, by [.str] or by
    [pd.to_numeric]: the label has to stand for one column.  [what] is the
    exception raised when it stands for several, and so for a frame. *)
Definition the_series (what : exn) (col : string) (df : DataFrame)
  : result nat :=
  match positions col df with
  | [] => Raise (KeyError col)
  | [j] => Return j
  | _ :: _ :: _ => Raise what
  end.

Definition no_str : exn :=
  AttributeError "'DataFrame' object has no attribute 'str'".
Definition not_1d : exn :=
  TypeError "arg must be a list, tuple, 1-d array, or Series".

(** Apply [f] to the cells of a row that stand at one of [js];
    [i] is the position of the head of the row. *)
Fixpoint on_positions (f : cell -> result cell) (js : list nat) (i : nat)
         (row : list cell) : result (list cell) :=
  match row with
  | [] => Return []
  | c :: row' =>
      c' <- (if existsb (Nat.eqb i) js then f c else Return c) ;;
      rest <- on_positions f js (S i) row' ;;
      Return (c' :: rest)
  end.

(** [df[col] = f(df[col])] for an element-wise [f]. *)
Definition assign (f : cell -> result cell) (col : string) (df : DataFrame)
  : result DataFrame :=
  match positions col df with
  | [] => Raise (KeyError col)
  | js =>
      rows' <- map_result (on_positions f js 0) (rows df) ;;
      Return (mkDataFrame (columns df) rows')
  end.

(** *** Element-wise operations *)

(** [.astype(str)]; the text of a finite number is not modelled. *)
Definition astype_str (c : cell) : result cell :=
  match c with
  | Str s => Return (Str s)
  | NaN => Return (Str "nan")
  | Inf => Return (Str "inf")
  | NegInf => Return (Str "-inf")
  | Num _ => Unmodelled
  end.

(** [.str.replace(old, new)], a literal replacement: what is not a
    string becomes missing. *)
Definition str_replace (old new : string) (c : cell) : result cell :=
  match c with
  | Str s => Return (Str (Str.replace old new s))
  | _ => Return NaN
  end.

(** [.str.extract(pattern, expand=False)] for a pattern that is one group:
    the text of the first match, missing when there is none. *)
Definition str_extract (pattern : Re.regex) (c : cell) : result cell :=
  match c with
  | Str s =>
      match Re.search pattern s with
      | Some m => Return (Str m)
      | None => Return NaN
      end
  | _ => Return NaN
  end.

(** The longest prefix of [s] made of characters in [p], and the rest. *)
Fixpoint span (p : ascii -> bool) (s : string) : string * string :=
  match s with
  | String c s' =>
      if p c then let (a, b) := span p s' in (String c a, b)
      else (EmptyString, s)
  | EmptyString => (EmptyString, EmptyString)
  end.

(** The number written by a string of decimal digits, after [acc]. *)
Fixpoint digits_value (acc : Z) (s : string) : Z :=
  match s with
  | EmptyString => acc
  | String c s' => digits_value (10 * acc + Char.digit_value c) s'
  end.

(** [10 ** k] *)
Fixpoint pow10 (k : nat) : positive :=
  match k with
  | O => 1%positive
  | S k' => (10 * pow10 k')%positive
  end.

(** The decimal value written by a text: a sign if any, digits, a point
    and more digits if any, with one digit at least, and nothing else.
    pandas reads exponents and the spellings of infinity as well;
    [Re.search] on the two patterns of the program yields digits and points
    only ([search_revenue_shape], [search_employee_shape]), so they are not
    reached. *)
Definition parse_number (s : string) : option Q :=
  let (negative, s1) :=
    match s with
    | String c t =>
        if Ascii.eqb c "-" then (true, t)
        else if Ascii.eqb c "+" then (false, t)
        else (false, s)
    | EmptyString => (false, s)
    end in
  let (int_part, s2) := span Char.isdigit s1 in
  let (frac_part, s3) :=
    match s2 with
    | String c t =>
        if Ascii.eqb c "." then span Char.isdigit t else (EmptyString, s2)
    | EmptyString => (EmptyString, s2)
    end in
  match s3 with
  | EmptyString =>
      if 0 <? String.length int_part + String.length frac_part then
        let m := digits_value 0 (int_part ++ frac_part) in
        Some (Qmake (if negative then Z.opp m else m)
                    (pow10 (String.length frac_part)))
      else None
  | _ => None
  end.

(** The least value that [float64] cannot hold: half way between its
    largest number and [2 ** 1024]. *)
Definition float64_overflow : Z := (2 ^ 1024 - 2 ^ 970)%Z.

(** The value that [pd.to_numeric] holds for a text whose decimal value is
    [q]: an infinity when [q] is out of the range of [float64], the number
    otherwise.  (A whole number too large for [int64] and [uint64] makes
    the column a [float64] column.) *)
Definition stored (q : Q) : cell :=
  if Qle_bool (inject_Z float64_overflow) q then Inf
  else if Qle_bool q (inject_Z (- float64_overflow)) then NegInf
  else Num q.

End Pd.

(* ================================================================= *)
(** ** The program *)

Import Bs4 Pd.

(** The pattern of lines 64 and 75: [\s+]. *)
Definition whitespace_run : Re.regex := Re.Plus Re.space.

(** The pattern of line 77: [\[\d+\]]. *)
Definition citation_marker : Re.regex :=
  Re.Cat (Re.Chr "[") (Re.Cat (Re.Plus Re.digit) (Re.Chr "]")).

(** The pattern of line 95: [\d+\.?\d*] as one group. *)
Definition revenue_number : Re.regex :=
  Re.Cat (Re.Plus Re.digit) (Re.Cat (Re.Opt (Re.Chr ".")) (Re.Star Re.digit)).

(** The pattern of line 104: [\d+] as one group. *)
Definition employee_number : Re.regex := Re.Plus Re.digit.

(** Lines 62-65: the label made from a header cell. *)
Definition header_text (th : PageElement) : string :=
  let header_text := get_text_strip th in
  let header_text := Re.sub whitespace_run " " header_text in
  Str.replace "(USD millions)" "(USD millions)" header_text.

(** Lines 73-77: the text kept from a cell of a data row. *)
Definition cell_text (td : PageElement) : string :=
  let cell_text := get_text_strip td in
  let cell_text := Re.sub whitespace_run " " cell_text in
  Re.sub citation_marker EmptyString cell_text.

(** Lines 59-66. *)
Definition extract_headers (header_row : PageElement) : list string :=
  map header_text (find_all ["th"] None header_row).

(** Lines 71-78: the cells of one row. *)
Definition extract_row (tr : PageElement) : list string :=
  map cell_text (find_all ["td"; "th"] None tr).

(** Lines 69-81: the rows after the first, those as long as the header. *)
Definition extract_rows (table : PageElement) (headers : list string)
  : list (list string) :=
  filter (fun row => List.length row =? List.length headers)
         (map extract_row (tl (find_all ["tr"] None table))).

(** The tests of lines 88 and 98 on a label. *)
Definition is_revenue (col : string) : bool :=
  Str.contains "revenue" (Str.lower col) || Str.contains "usd" (Str.lower col).

Definition is_employee (col : string) : bool :=
  Str.contains "employee" (Str.lower col).

(** [pd.to_numeric(..., errors='coerce')] on one value: a text that writes
    no number becomes the missing value, one that writes a number beyond
    the range of [float64] an infinity, any other the number [Num q] of
    its decimal value [q].  pandas chooses [int64] or [float64] for the
    whole column and rounds [q] to it; that choice and the rounding are
    left out, see [cell]. *)
Definition to_numeric (c : cell) : result cell :=
  match c with
  | Str s =>
      match parse_number s with
      | Some q => Return (stored q)
      | None => Return NaN
      end
  | other => Return other
  end.

(** [df[col] = df[col].str.replace(old, new)] *)
Definition replace_in (col old new : string) (df : DataFrame)
  : result DataFrame :=
  _ <- the_series no_str col df ;;
  assign (str_replace old new) col df.

(** [df[col] = df[col].str.extract(pattern, expand=False)] *)
Definition extract_in (col : string) (pattern : Re.regex) (df : DataFrame)
  : result DataFrame :=
  _ <- the_series no_str col df ;;
  assign (str_extract pattern) col df.

(** [df[col] = pd.to_numeric(df[col], errors='coerce')] *)
Definition to_numeric_in (col : string) (df : DataFrame) : result DataFrame :=
  _ <- the_series not_1d col df ;;
  assign to_numeric col df.

(** Lines 88-105: the body of the loop over the labels. *)
Definition clean_column (df : DataFrame) (col : string) : result DataFrame :=
  if is_revenue col then
    df <- assign astype_str col df ;;
    df <- replace_in col "," EmptyString df ;;
    df <- replace_in col "$" EmptyString df ;;
    df <- replace_in col " " EmptyString df ;;
    df <- extract_in col revenue_number df ;;
    to_numeric_in col df
  else if is_employee col then
    df <- assign astype_str col df ;;
    df <- replace_in col "," EmptyString df ;;
    df <- replace_in col " " EmptyString df ;;
    df <- extract_in col employee_number df ;;
    to_numeric_in col df
  else Return df.

(** Lines 87-105. *)
Definition clean_columns (df : DataFrame) : result DataFrame :=
  for_each clean_column (columns df) df.

Definition no_find_all : exn :=
  AttributeError "'NoneType' object has no attribute 'find_all'".

Local Open Scope M_scope.

(** Lines 48-107: from the parsed page to the frame. *)
Definition scrape_page (soup : PageElement) : M (option DataFrame) :=
  let tables := find_all ["table"] (Some "wikitable sortable") soup in
  match tables with
  | [] =>
      st_error "Could not find the data table on Wikipedia" ;;
      ret None
  | table :: _ =>
      header_row <- lift (match find "tr" table with
                          | Some tr => Return tr
                          | None => Raise no_find_all
                          end) ;;
      let headers := extract_headers header_row in
      let rows := extract_rows table headers in
      df <- lift (DataFrame_of rows headers) ;;
      df <- lift (clean_columns df) ;;
      ret (Some df)
  end.

(** What lines 45-48 give: the parsed page, or the exception raised by the
    request. *)
Inductive response : Type :=
| Parsed (soup : PageElement)
| Failed (e : exn).

Definition parse (r : response) : result PageElement :=
  match r with
  | Parsed soup => Return soup
  | Failed e => Raise e
  end.

(** Lines 35-111. *)
Definition scrape_companies_data (r : response) : M (option DataFrame) :=
  try_except
    (soup <- lift (parse r) ;; scrape_page soup)
    (fun e =>
       st_error ("Error scraping data: " ++ str_exn e) ;;
       ret None).

Local Close Scope M_scope.

(** *** The filters of [main] *)

Definition no_compare : exn :=
  TypeError "'>=' not supported between instances of 'str' and 'int'".

(** [value >= min_revenue] on one value of the column. *)
Definition ge_min (min_revenue : Z) (c : cell) : result bool :=
  match c with
  | Num q => Return (Qle_bool (inject_Z min_revenue) q)
  | NaN => Return false
  | Inf => Return true
  | NegInf => Return false
  | Str _ => Raise no_compare
  end.

(** [df[col]] where the whole column is compared; a label that stands for
    several columns gives a frame, which is not modelled. *)
Definition the_column (col : string) (df : DataFrame) : result (list cell) :=
  match positions col df with
  | [] => Raise (KeyError col)
  | [j] => Return (map (fun row => nth j row NaN) (rows df))
  | _ :: _ :: _ => Unmodelled
  end.

(** [frame[mask]]: the rows whose entry of the mask is [True]. *)
Definition boolean_index (df : DataFrame) (mask : list bool) : DataFrame :=
  mkDataFrame (columns df) (map fst (filter snd (combine (rows df) mask))).

(** Lines 203-204: [df] is the scraped frame, [filtered_df] what the
    filters before have left of it. *)
Definition min_revenue_filter (df filtered_df : DataFrame) (min_revenue : Z)
  : result DataFrame :=
  if existsb (String.eqb "Revenue (USD millions)") (columns df) then
    column <- the_column "Revenue (USD millions)" filtered_df ;;
    mask <- map_result (ge_min min_revenue) column ;;
    Return (boolean_index filtered_df mask)
  else Return filtered_df.

(* ================================================================= *)
(** ** More of [main] *)

(** [df.empty]: one of the two axes has no entry. *)
Definition empty (df : DataFrame) : bool :=
  (List.length (columns df) =? 0) || (List.length (rows df) =? 0).

(** Line 153: [df is not None and not df.empty]. *)
Definition has_data (df : option DataFrame) : bool :=
  match df with
  | Some df => negb (empty df)
  | None => false
  end.

(** The loops of lines 249-252, 255-258, 311-314, 334-337 and 339-342:
    the first label that passes [test], [None] when there is none. *)
Fixpoint first_label (test : string -> bool) (labels : list string)
  : option string :=
  match labels with
  | [] => None
  | col :: labels' => if test col then Some col else first_label test labels'
  end.

(** The tests of lines 256 and 340, and of line 312. *)
Definition is_name (col : string) : bool :=
  Str.contains "name" (Str.lower col) || Str.contains "company" (Str.lower col).

Definition is_industry (col : string) : bool :=
  Str.contains "industry" (Str.lower col) || Str.contains "sector" (Str.lower col).

(** Lines 245-252, 246-258, 310-314 and 331-337. *)
Definition revenue_col (df : DataFrame) : option string :=
  first_label is_revenue (columns df).

Definition name_col (df : DataFrame) : option string :=
  first_label is_name (columns df).

Definition industry_col (df : DataFrame) : option string :=
  first_label is_industry (columns df).

Definition employees_col (df : DataFrame) : option string :=
  first_label is_employee (columns df).

(** [value == selected_industry] on one value of the column. *)
Definition eq_industry (selected_industry : string) (c : cell) : bool :=
  match c with
  | Str s => String.eqb s selected_industry
  | _ => false
  end.

(** Lines 200-201. *)
Definition industry_filter (df filtered_df : DataFrame)
           (selected_industry : string) : result DataFrame :=
  if existsb (String.eqb "Industry") (columns df)
     && negb (String.eqb selected_industry "All")
  then
    column <- the_column "Industry" filtered_df ;;
    Return (boolean_index filtered_df
              (map (eq_industry selected_industry) column))
  else Return filtered_df.

(** Lines 198-204. *)
Definition apply_filters (df : DataFrame) (selected_industry : string)
           (min_revenue : Z) : result DataFrame :=
  let filtered_df := df in
  filtered_df <- industry_filter df filtered_df selected_industry ;;
  min_revenue_filter df filtered_df min_revenue.







(* ================================================================= *)
(** ** Sample pages *)

Module Sample.

Definition th (t : string) : PageElement := Tag "th" [] [NavigableString t].
Definition td (t : string) : PageElement := Tag "td" [] [NavigableString t].
Definition tr (cells : list PageElement) : PageElement := Tag "tr" [] cells.

(** A page whose body holds one sortable wikitable with the given rows. *)
Definition page (trs : list PageElement) : PageElement :=
  Tag "[document]" []
    [Tag "html" []
       [Tag "body" []
          [Tag "p" [] [NavigableString "Largest companies"];
           Tag "table" ["wikitable"; "sortable"] [Tag "tbody" [] trs]]]].

(** The end-to-end scenario of the specification. *)
Definition acme : PageElement :=
  page [tr [th "Rank"; th "Name"; th "Revenue (USD millions)"; th "Employees"];
        tr [td "1"; td "Acme Corp"; td "$500,000"; td "120,000"]].

(** A header of three labels, a row of two cells and a row of three. *)
Definition ragged : PageElement :=
  page [tr [th "A"; th "B"; th "C"];
        tr [td "1"; td "2"];
        tr [td "x"; td "y"; td "z"];
        tr [td "p"; td "q"; td "r"; td "s"]].

(** A header cell and two data cells that carry citation markers. *)
Definition cited : PageElement :=
  page [tr [th "Rank[1]"; th "Name"];
        tr [Tag "td" [] [NavigableString " 123";
                         Tag "sup" [] [NavigableString "[4]"]];
            td "Acme[2] Corp"]].

(** Two companies, with revenues of 100 and of 5000. *)
Definition two_revenues : PageElement :=
  page [tr [th "Name"; th "Revenue (USD millions)"];
        tr [td "Small"; td "100"];
        tr [td "Large"; td "5,000"]].

(** A label that passes the revenue test and the employee test. *)
Definition both_tests : PageElement :=
  page [tr [th "Name"; th "Revenue per employee (USD)"];
        tr [td "Acme"; td "$1.5"]].

(** A page without any table. *)
Definition bare : PageElement :=
  Tag "[document]" [] [Tag "p" [] [NavigableString "nothing here"]].



End Sample.

(* ================================================================= *)
(** ** Notions used in the statements *)

(** The length of the match of [citation_marker] at the head of [s], read
    off the text: a bracket, a run of digits that is not empty, a bracket. *)
Definition citation_at (s : string) : option nat :=
  match s with
  | String c r =>
      if Ascii.eqb c "[" then
        let (d, u) := span Char.isdigit r in
        match d, u with
        | String _ _, String c2 _ =>
            if Ascii.eqb c2 "]" then Some (S (S (String.length d))) else None
        | _, _ => None
        end
      else None
  | EmptyString => None
  end.

(** The same for [revenue_number]: a run of digits that is not empty, then
    a point and a further run of digits if the point is there. *)
Definition revenue_at (s : string) : option nat :=
  let (d1, u) := span Char.isdigit s in
  match d1 with
  | EmptyString => None
  | String _ _ =>
      match u with
      | String c v =>
          if Ascii.eqb c "."
          then Some (String.length d1
                     + S (String.length (fst (span Char.isdigit v))))
          else Some (String.length d1)
      | EmptyString => Some (String.length d1)
      end
  end.

(** The same for a run of a class, [\s+] or [\d+]. *)
Definition run_at (p : ascii -> bool) (s : string) : option nat :=
  match fst (span p s) with
  | EmptyString => None
  | String _ _ as a => Some (String.length a)
  end.

(** The text searched for a number in a revenue column (lines 91-93) and
    in an employee column (lines 101-102). *)
Definition revenue_text (s : string) : string :=
  Str.replace " " EmptyString
    (Str.replace "$" EmptyString (Str.replace "," EmptyString s)).

Definition employee_text (s : string) : string :=
  Str.replace " " EmptyString (Str.replace "," EmptyString s).

(** The value that [pd.to_numeric(..., errors='coerce')] gives for what
    [str.extract] found. *)
Definition numeric_of (found : option string) : cell :=
  match found with
  | Some m =>
      match parse_number m with
      | Some q => stored q
      | None => NaN
      end
  | None => NaN
  end.

(** The value left in a revenue column (lines 90-96) and in an employee
    column (lines 100-105) for the text [s]. *)
Definition revenue_value (s : string) : cell :=
  numeric_of (Re.search revenue_number (revenue_text s)).

Definition employee_value (s : string) : cell :=
  numeric_of (Re.search employee_number (employee_text s)).

(** The rule that lines 88-105 apply to the column labelled [col]: the
    revenue rule is tested first, the employee rule only when it fails. *)
Inductive rule : Type := RevenueRule | EmployeeRule | NoRule.

Definition rule_of (col : string) : rule :=
  if is_revenue col then RevenueRule
  else if is_employee col then EmployeeRule
  else NoRule.

(** The cell that a rule makes of the text [s]. *)
Definition apply_rule (r : rule) (s : string) : cell :=
  match r with
  | RevenueRule => revenue_value s
  | EmployeeRule => employee_value s
  | NoRule => Str s
  end.

(** The row of the frame made from the texts [row] under the labels
    [headers], the columns labelled by one of [done] being cleaned. *)
Definition cleaned_row (done headers : list string) (row : list string)
  : list cell :=
  map (fun hs : string * string =>
         if existsb (String.eqb (fst hs)) done
         then apply_rule (rule_of (fst hs)) (snd hs)
         else Str (snd hs))
      (combine headers row).

(** The row once every column is cleaned. *)
Definition coerce_row (headers : list string) (row : list string) : list cell :=
  map (fun hs : string * string => apply_rule (rule_of (fst hs)) (snd hs))
      (combine headers row).

(** Every label of [headers] that has a rule stands for one column. *)
Definition numeric_once (headers : list string) : bool :=
  forallb (fun h => match rule_of h with
                    | NoRule => true
                    | _ => count_occ string_dec headers h =? 1
                    end)
          headers.

(** [g] applied to the cells of [row] that stand under the label [col]. *)
Fixpoint on_label (g : cell -> cell) (col : string) (labels : list string)
         (row : list cell) : list cell :=
  match labels, row with
  | l :: ls, c :: row' =>
      (if String.eqb l col then g c else c) :: on_label g col ls row'
  | _, _ => row
  end.

(** The cells of [row] that stand under the label [col]. *)
Fixpoint under (col : string) (labels : list string) (row : list cell)
  : list cell :=
  match labels, row with
  | l :: ls, c :: row' =>
      if String.eqb l col then c :: under col ls row' else under col ls row'
  | _, _ => []
  end.

(** The value of an element-wise operation that returns. *)
Definition value_of (r : result cell) : cell :=
  match r with
  | Return c => c
  | _ => NaN
  end.

(** What a rule makes of a cell that still holds its text. *)
Definition clean_cell (r : rule) (c : cell) : cell :=
  match c with
  | Str s => apply_rule r s
  | other => other
  end.

(** What [scrape_companies_data] returns for a parsed page, and what it
    reports on the way. *)
Definition scrape_outcome (soup : PageElement) : option DataFrame * list string :=
  match find_all ["table"] (Some "wikitable sortable") soup with
  | [] => (None, ["Could not find the data table on Wikipedia"])
  | table :: _ =>
      match find "tr" table with
      | None => (None, ["Error scraping data: " ++ str_exn no_find_all])
      | Some header_row =>
          let headers := extract_headers header_row in
          if numeric_once headers
          then (Some (mkDataFrame headers
                        (map (coerce_row headers) (extract_rows table headers))),
                [])
          else (None, ["Error scraping data: " ++ str_exn no_str])
      end
  end.

(** The test of line 204 on one value. *)
Definition at_least (min_revenue : Z) (c : cell) : bool :=
  match c with
  | Num q => Qle_bool (inject_Z min_revenue) q
  | Inf => true
  | _ => false
  end.

(** A value of a cleaned column: a number, finite or not, or the missing
    value. *)
Definition is_numeric (c : cell) : bool :=
  match c with
  | Str _ => false
  | _ => true
  end.

(** A text of digits, with a point and more digits after it or without. *)
Definition is_decimal (m : string) : Prop :=
  exists d1 d2 : string,
    d1 <> EmptyString /\ Str.all Char.isdigit d1 = true
    /\ Str.all Char.isdigit d2 = true
    /\ (m = d1 \/ m = d1 ++ String "." d2).

(** A text of digits. *)
Definition is_digits (m : string) : Prop :=
  m <> EmptyString /\ Str.all Char.isdigit m = true.

(** [s] starts with a character that is no whitespace. *)
Definition starts_clean (s : string) : bool :=
  match s with
  | String c _ => negb (Char.isspace c)
  | EmptyString => false
  end.

(** [s] does not end with whitespace. *)
Fixpoint ends_clean (s : string) : bool :=
  match s with
  | EmptyString => true
  | String c EmptyString => negb (Char.isspace c)
  | String _ s' => ends_clean s'
  end.

(** Every whitespace character of [s] is a blank, and what follows it is a
    character that is no whitespace. *)
Fixpoint single_blanks (s : string) : bool :=
  match s with
  | EmptyString => true
  | String c s' =>
      (if Char.isspace c then Ascii.eqb c " " && starts_clean s' else true)
      && single_blanks s'
  end.

(** A piece of those that [get_text(strip=True)] joins: a text that is
    not empty and has no whitespace at either end. *)
Definition piece (t : string) : Prop :=
  t <> EmptyString
  /\ Str.stops Char.isspace t = true /\ ends_clean t = true.

(** A text whose whitespace is normalised: no whitespace at either end,
    single blanks inside. *)
Definition tidy (s : string) : bool :=
  Str.stops Char.isspace s && single_blanks s.

(** No citation marker starts anywhere in [s]. *)
Fixpoint marker_free (s : string) : bool :=
  match Re.match_at citation_marker s with
  | Some _ => false
  | None =>
      match s with
      | EmptyString => true
      | String _ s' => marker_free s'
      end
  end.

(** A value that is a number, finite or not. *)
Definition is_number (c : cell) : bool :=
  match c with
  | Num _ | Inf | NegInf => true
  | _ => false
  end.

(* ================================================================= *)
(** ** Strings: basic facts *)

Section StringFacts.

Import Str.

Lemma append_nil_r (s : string) : s ++ EmptyString = s.
Proof. induction s as [|c s IH]; simpl; [reflexivity | now rewrite IH]. Qed.

Lemma append_assoc (a b c : string) : (a ++ b) ++ c = a ++ (b ++ c).
Proof. induction a as [|x a IH]; simpl; [reflexivity | now rewrite IH]. Qed.

Lemma length_append (a b : string) :
  String.length (a ++ b) = String.length a + String.length b.
Proof. induction a as [|x a IH]; simpl; [reflexivity | now rewrite IH]. Qed.

Lemma drop_length_append (a b : string) : Str.drop (String.length a) (a ++ b) = b.
Proof. induction a as [|x a IH]; simpl; [now destruct b | exact IH]. Qed.

Lemma take_length_append (a b : string) : Str.take (String.length a) (a ++ b) = a.
Proof.
  induction a as [|x a IH]; simpl; [now destruct b | now rewrite IH].
Qed.

Lemma take_drop (n : nat) (s : string) : Str.take n s ++ Str.drop n s = s.
Proof.
  revert s; induction n as [|n IH]; intros [|c s]; simpl; try reflexivity.
  now rewrite IH.
Qed.

Lemma all_append (p : ascii -> bool) (a b : string) :
  all p (a ++ b) = all p a && all p b.
Proof.
  induction a as [|x a IH]; simpl; [reflexivity|].
  now rewrite IH, andb_assoc.
Qed.

Lemma span_spec (p : ascii -> bool) (s : string) :
  let (a, b) := span p s in
  s = a ++ b /\ all p a = true /\ stops p b = true.
Proof.
  induction s as [|c s IH]; simpl; [auto|].
  destruct (p c) eqn:Hc.
  - destruct (span p s) as [a b]. destruct IH as (-> & Ha & Hb).
    simpl. rewrite Hc, Ha. auto.
  - simpl. rewrite Hc. auto.
Qed.

Lemma span_append (p : ascii -> bool) (a b : string) :
  all p a = true -> stops p b = true -> span p (a ++ b) = (a, b).
Proof.
  induction a as [|x a IH]; simpl; intros Ha Hb.
  - destruct b as [|c b]; simpl in *; [reflexivity|].
    now rewrite (negb_true_iff _) in Hb; rewrite Hb.
  - apply andb_true_iff in Ha as [Hx Ha]. now rewrite Hx, IH.
Qed.

End StringFacts.

(* ================================================================= *)
(** ** The matcher on the patterns of the program *)

Section MatcherFacts.

Import Str Re.

Variable p : ascii -> bool.
Variable k : string -> option nat.

Lemma matchk_cls_cons (x : ascii) (s : string) (k' : string -> option nat) :
  matchk (Cls p) (String x s) k' = if p x then option_map S (k' s) else None.
Proof. reflexivity. Qed.

Lemma matchk_plus_cls_cons (x : ascii) (s : string) :
  matchk (Plus (Cls p)) (String x s) k
  = if p x
    then option_map S (star_loop (matchk (Cls p)) k (String.length s) s)
    else None.
Proof. reflexivity. Qed.

(** A greedy iteration of a class goes to the end of the run when the
    continuation accepts there. *)
Lemma star_cls_success (a b : string) (n fuel : nat) :
  all p a = true -> stops p b = true ->
  String.length (a ++ b) <= fuel ->
  k b = Some n ->
  star_loop (matchk (Cls p)) k fuel (a ++ b) = Some (String.length a + n).
Proof.
  revert fuel; induction a as [|x a IH]; intros fuel Ha Hb Hfuel Hk.
  - simpl. destruct fuel as [|f]; simpl; [exact Hk|].
    destruct b as [|c b]; simpl; [exact Hk|].
    simpl in Hb. apply negb_true_iff in Hb. now rewrite Hb.
  - simpl in Ha. apply andb_true_iff in Ha as [Hx Ha].
    destruct fuel as [|f]; [simpl in Hfuel; lia|].
    cbn [append star_loop]. rewrite matchk_cls_cons, Hx.
    assert (Hlt : (String.length (a ++ b) <? String.length (String x (a ++ b))) = true)
      by (apply Nat.ltb_lt; simpl; lia).
    rewrite Hlt. rewrite (IH f Ha Hb); [reflexivity | simpl in Hfuel; lia | exact Hk].
Qed.

(** It fails when the continuation refuses every place of the run. *)
Lemma star_cls_fail (a b : string) (fuel : nat) :
  all p a = true -> stops p b = true ->
  String.length (a ++ b) <= fuel ->
  (forall a1 a2, a = a1 ++ a2 -> k (a2 ++ b) = None) ->
  star_loop (matchk (Cls p)) k fuel (a ++ b) = None.
Proof.
  revert fuel; induction a as [|x a IH]; intros fuel Ha Hb Hfuel Hk.
  - pose proof (Hk EmptyString EmptyString eq_refl) as Hkb. simpl in Hkb.
    simpl. destruct fuel as [|f]; simpl; [exact Hkb|].
    destruct b as [|c b]; simpl; [exact Hkb|].
    simpl in Hb. apply negb_true_iff in Hb. now rewrite Hb.
  - simpl in Ha. apply andb_true_iff in Ha as [Hx Ha].
    destruct fuel as [|f]; [simpl in Hfuel; lia|].
    cbn [append star_loop]. rewrite matchk_cls_cons, Hx.
    assert (Hlt : (String.length (a ++ b) <? String.length (String x (a ++ b))) = true)
      by (apply Nat.ltb_lt; simpl; lia).
    rewrite Hlt. rewrite (IH f Ha Hb).
    + simpl. exact (Hk EmptyString (String x a) eq_refl).
    + simpl in Hfuel; lia.
    + intros a1 a2 ->. exact (Hk (String x a1) a2 eq_refl).
Qed.

Lemma plus_cls_stop (s : string) :
  stops p s = true -> matchk (Plus (Cls p)) s k = None.
Proof.
  destruct s as [|c s]; simpl; [reflexivity|].
  intros H. apply negb_true_iff in H. now rewrite H.
Qed.

Lemma plus_cls_success (a b : string) (n : nat) :
  a <> EmptyString -> all p a = true -> stops p b = true ->
  k b = Some n ->
  matchk (Plus (Cls p)) (a ++ b) k = Some (String.length a + n).
Proof.
  destruct a as [|x a]; [congruence|]. intros _ Ha Hb Hk.
  simpl in Ha. apply andb_true_iff in Ha as [Hx Ha].
  cbn [append]. rewrite matchk_plus_cls_cons, Hx.
  rewrite (@star_cls_success a b n _ Ha Hb (le_n _) Hk).
  reflexivity.
Qed.

Lemma plus_cls_fail (a b : string) :
  all p a = true -> stops p b = true ->
  (forall a1 a2, a = a1 ++ a2 -> k (a2 ++ b) = None) ->
  matchk (Plus (Cls p)) (a ++ b) k = None.
Proof.
  destruct a as [|x a]; intros Ha Hb Hk.
  - now apply plus_cls_stop.
  - simpl in Ha. apply andb_true_iff in Ha as [Hx Ha].
    cbn [append]. rewrite matchk_plus_cls_cons, Hx.
    rewrite (@star_cls_fail a b _ Ha Hb (le_n _)); [reflexivity|].
    intros a1 a2 ->. exact (Hk (String x a1) a2 eq_refl).
Qed.

End MatcherFacts.

Section PatternFacts.

Import Str Re.

Let k0 : string -> option nat := fun _ => Some 0.

Lemma match_at_plus_cls (p : ascii -> bool) (s : string) :
  match_at (Plus (Cls p)) s = run_at p s.
Proof.
  unfold match_at, run_at. pose proof (span_spec p s) as H.
  destruct (span p s) as [a b]. destruct H as (-> & Ha & Hb). simpl fst.
  destruct a as [|x a].
  - simpl append. now apply plus_cls_stop.
  - rewrite (@plus_cls_success p _ (String x a) b 0); try easy.
    now rewrite Nat.add_0_r.
Qed.

Lemma match_at_whitespace (s : string) :
  match_at whitespace_run s = run_at Char.isspace s.
Proof. apply match_at_plus_cls. Qed.

Lemma match_at_employee (s : string) :
  match_at employee_number s = run_at Char.isdigit s.
Proof. apply match_at_plus_cls. Qed.

Lemma star_cls_k0 (p : ascii -> bool) (s : string) :
  matchk (Star (Cls p)) s k0 = Some (String.length (fst (span p s))).
Proof.
  pose proof (span_spec p s) as H.
  destruct (span p s) as [a b]. destruct H as (-> & Ha & Hb). simpl fst.
  change (matchk (Star (Cls p)) (a ++ b) k0)
    with (star_loop (matchk (Cls p)) k0 (String.length (a ++ b)) (a ++ b)).
  rewrite (@star_cls_success p k0 a b 0); try easy.
  now rewrite Nat.add_0_r.
Qed.

(** What follows the first run of digits in [revenue_number]. *)
Lemma fraction_at (u : string) :
  matchk (Cat (Opt (Chr ".")) (Star digit)) u k0
  = match u with
    | String c v =>
        if Ascii.eqb c "."
        then Some (S (String.length (fst (span Char.isdigit v))))
        else Some (String.length (fst (span Char.isdigit u)))
    | EmptyString => Some 0
    end.
Proof.
  change (matchk (Cat (Opt (Chr ".")) (Star digit)) u k0)
    with (match matchk (Chr ".") u (fun t => matchk (Star digit) t k0) with
          | Some n => Some n
          | None => matchk (Star digit) u k0
          end).
  destruct u as [|c v]; [reflexivity|].
  change (matchk (Chr ".") (String c v) (fun t => matchk (Star digit) t k0))
    with (if Ascii.eqb c "." then option_map S (matchk (Star digit) v k0) else None).
  unfold digit. destruct (Ascii.eqb c ".").
  - now rewrite star_cls_k0.
  - now rewrite star_cls_k0.
Qed.

Lemma match_at_revenue (s : string) :
  match_at revenue_number s = revenue_at s.
Proof.
  unfold match_at, revenue_at, revenue_number.
  change (matchk (Cat (Plus digit) (Cat (Opt (Chr ".")) (Star digit))) s (fun _ => Some 0))
    with (matchk (Plus (Cls Char.isdigit)) s
            (fun t => matchk (Cat (Opt (Chr ".")) (Star digit)) t k0)).
  pose proof (span_spec Char.isdigit s) as H.
  destruct (span Char.isdigit s) as [d1 u]. destruct H as (-> & Ha & Hb).
  destruct d1 as [|x d1].
  - simpl append. now apply plus_cls_stop.
  - pose proof (fraction_at u) as Hu.
    destruct u as [|c v].
    + rewrite (@plus_cls_success _ _ (String x d1) EmptyString 0); try easy.
      now rewrite Nat.add_0_r.
    + simpl in Hb. destruct (Ascii.eqb c ".") eqn:Hc.
      * now rewrite (@plus_cls_success _ _ (String x d1) (String c v) _
                       ltac:(easy) Ha Hb Hu).
      * rewrite (@plus_cls_success _ _ (String x d1) (String c v) _
                       ltac:(easy) Ha Hb Hu).
        simpl span. apply negb_true_iff in Hb. rewrite Hb. simpl.
        now rewrite Nat.add_0_r.
Qed.

Lemma match_at_citation (s : string) :
  match_at citation_marker s = citation_at s.
Proof.
  unfold match_at, citation_at, citation_marker.
  destruct s as [|c r]; [reflexivity|].
  change (matchk (Cat (Chr "[") (Cat (Plus digit) (Chr "]"))) (String c r) (fun _ => Some 0))
    with (if Ascii.eqb c "["
          then option_map S (matchk (Plus (Cls Char.isdigit)) r
                               (fun t => matchk (Chr "]") t k0))
          else None).
  destruct (Ascii.eqb c "["); [|reflexivity].
  pose proof (span_spec Char.isdigit r) as H.
  destruct (span Char.isdigit r) as [d u]. destruct H as (-> & Ha & Hb).
  destruct d as [|x d].
  - simpl append. now rewrite plus_cls_stop.
  - destruct u as [|c2 v].
    + rewrite plus_cls_fail; try easy.
      intros a1 a2 E. rewrite append_nil_r.
      destruct a2 as [|y a2]; [reflexivity|].
      assert (Hy : Char.isdigit y = true).
      { rewrite E, all_append in Ha. apply andb_true_iff in Ha as [_ Ha].
        simpl in Ha. now apply andb_true_iff in Ha as [Ha _]. }
      simpl. destruct (Ascii.eqb_spec y "]"); [subst; discriminate|reflexivity].
    + destruct (Ascii.eqb c2 "]") eqn:Hc2.
      * rewrite (@plus_cls_success _ _ (String x d) (String c2 v) 1); try easy.
        -- simpl. now rewrite Nat.add_1_r.
        -- simpl. now rewrite Hc2.
      * rewrite plus_cls_fail; try easy.
        intros a1 a2 E. destruct a2 as [|y a2].
        -- simpl. now rewrite Hc2.
        -- assert (Hy : Char.isdigit y = true).
           { rewrite E, all_append in Ha. apply andb_true_iff in Ha as [_ Ha].
             simpl in Ha. now apply andb_true_iff in Ha as [Ha _]. }
           simpl. destruct (Ascii.eqb_spec y "]"); [subst; discriminate|reflexivity].
Qed.

End PatternFacts.

(* ================================================================= *)
(** ** Replacement and search *)

Section ScanFacts.

Import Str.

Variable at_head : string -> option nat.
Variable repl : string.

Lemma scan_skip (x b : string) :
  scan at_head repl (String.length x) (x ++ b) = scan at_head repl 0 b.
Proof.
  induction x as [|c x IH]; simpl; [|exact IH].
  destruct b; reflexivity.
Qed.

(** A scan splits at a place no match can cross. *)
Lemma scan_app (t : string) :
  (forall a, a <> EmptyString -> at_head (a ++ t) = at_head a) ->
  (forall s n, at_head s = Some n -> n <= String.length s) ->
  forall (a : string) (skip : nat),
    skip <= String.length a ->
    scan at_head repl skip (a ++ t)
    = scan at_head repl skip a ++ scan at_head repl 0 t.
Proof.
  intros Hlocal Hbound. induction a as [|c a IH]; intros skip Hskip.
  - simpl in Hskip. assert (skip = 0) as -> by lia. reflexivity.
  - destruct skip as [|skip].
    + cbn [append scan].
      change (String c (a ++ t)) with (String c a ++ t).
      rewrite (Hlocal (String c a)) by discriminate.
      destruct (at_head (String c a)) as [[|n]|] eqn:Hm.
      * rewrite (IH 0) by lia. reflexivity.
      * apply Hbound in Hm. simpl in Hm.
        rewrite (IH n) by lia. now rewrite append_assoc.
      * rewrite (IH 0) by lia. reflexivity.
    + simpl in Hskip. cbn [append scan]. apply IH. lia.
Qed.

(** Text without any match is copied. *)
Lemma scan_copy (x b : string) :
  (forall x1 x2, x = x1 ++ x2 -> x2 <> EmptyString ->
                 at_head (x2 ++ b) = None) ->
  scan at_head repl 0 (x ++ b) = x ++ scan at_head repl 0 b.
Proof.
  induction x as [|c x IH]; intros H; [reflexivity|].
  cbn [append scan].
  change (String c (x ++ b)) with (String c x ++ b).
  rewrite (H EmptyString (String c x) eq_refl) by discriminate.
  rewrite IH; [reflexivity|].
  intros x1 x2 -> Hx2. exact (H (String c x1) x2 eq_refl Hx2).
Qed.

End ScanFacts.

Section ReplaceFacts.

Import Str.

Lemma prefix_split (old s : string) :
  String.prefix old s = true ->
  s = old ++ drop (String.length old) s.
Proof.
  revert s; induction old as [|a old IH]; intros [|b s]; simpl;
    try reflexivity; try discriminate.
  destruct (ascii_dec a b) as [->|]; [|discriminate].
  intros H. now rewrite <- (IH s H).
Qed.

Lemma prefix_length (old s : string) :
  String.prefix old s = true -> String.length old <= String.length s.
Proof.
  revert s; induction old as [|a old IH]; intros [|b s]; simpl;
    try lia; try discriminate.
  destruct (ascii_dec a b); [|discriminate].
  intros H. apply IH in H. lia.
Qed.

(** Replacing a text by itself changes nothing (line 65). *)
Lemma replace_same (old s : string) : replace old old s = s.
Proof.
  unfold replace.
  set (m := fun t => if String.prefix old t then Some (String.length old) else None).
  assert (H : forall s skip, skip <= String.length s ->
                             scan m old skip s = drop skip s).
  { clear s. induction s as [|c s IH]; intros skip Hskip.
    - now destruct skip.
    - destruct skip as [|skip]; cbn [scan drop].
      + unfold m at 1. destruct (String.prefix old (String c s)) eqn:Hp.
        * destruct (String.length old) as [|n] eqn:Hn.
          -- now rewrite IH by lia.
          -- pose proof (prefix_length _ _ Hp) as Hl.
             pose proof (prefix_split _ _ Hp) as Hs.
             rewrite Hn in *. simpl in Hl, Hs.
             rewrite IH by lia. now rewrite <- Hs.
        * now rewrite IH by lia.
      + simpl in Hskip. apply IH. lia. }
  now rewrite (H s 0) by lia.
Qed.

(** Replacing one character by nothing removes its occurrences. *)
Lemma replace_char (c : ascii) (s : string) :
  replace (String c EmptyString) EmptyString s = remove c s.
Proof.
  unfold replace.
  set (m := fun t => if String.prefix (String c EmptyString) t
                     then Some (String.length (String c EmptyString)) else None).
  induction s as [|x s IH]; [reflexivity|].
  cbn [scan remove]. unfold m at 1. cbn [String.prefix String.length].
  destruct (ascii_dec c x) as [->|Hne].
  - rewrite Ascii.eqb_refl. destruct s; simpl; exact IH.
  - destruct (Ascii.eqb_spec x c) as [->|_]; [congruence|].
    now rewrite IH.
Qed.

Lemma any_remove (p : ascii -> bool) (c : ascii) (s : string) :
  p c = false -> any p (remove c s) = any p s.
Proof.
  intros Hc. induction s as [|x s IH]; [reflexivity|]. simpl.
  destruct (Ascii.eqb_spec x c) as [->|_]; simpl; rewrite IH; [|reflexivity].
  now rewrite Hc.
Qed.

End ReplaceFacts.

Section SearchFacts.

Import Str Re.

Lemma span_all (p : ascii -> bool) (a : string) :
  all p a = true -> span p a = (a, EmptyString).
Proof.
  intros Ha. rewrite <- (append_nil_r a) at 1. now apply span_append.
Qed.

Lemma run_at_digits (s : string) (n : nat) :
  run_at Char.isdigit s = Some n -> is_digits (take n s).
Proof.
  unfold run_at. pose proof (span_spec Char.isdigit s) as H.
  destruct (span Char.isdigit s) as [d u]. destruct H as (-> & Hd & _).
  simpl fst. destruct d as [|x d]; [discriminate|].
  intros [= <-]. change (S (String.length d)) with (String.length (String x d)).
  rewrite take_length_append. split; [discriminate|exact Hd].
Qed.

Lemma revenue_at_decimal (s : string) (n : nat) :
  revenue_at s = Some n -> is_decimal (take n s).
Proof.
  unfold revenue_at. pose proof (span_spec Char.isdigit s) as H.
  destruct (span Char.isdigit s) as [d1 u]. destruct H as (-> & Hd1 & _).
  destruct d1 as [|x d1]; [discriminate|].
  destruct u as [|c v].
  - intros [= <-]. change (S (String.length d1)) with (String.length (String x d1)).
    rewrite take_length_append.
    exists (String x d1), EmptyString. repeat split; auto. discriminate.
  - destruct (Ascii.eqb_spec c ".") as [->|_].
    + pose proof (span_spec Char.isdigit v) as H.
      destruct (span Char.isdigit v) as [d2 w]. destruct H as (-> & Hd2 & _).
      simpl fst. intros [= <-].
      exists (String x d1), d2. repeat split; auto; [discriminate|]. right.
      change (String "." (d2 ++ w)) with (String "." d2 ++ w).
      rewrite <- append_assoc.
      replace (S (String.length d1 + S (String.length d2)))
        with (String.length (String x d1 ++ String "." d2))
        by (rewrite length_append; reflexivity).
      apply take_length_append.
    + intros [= <-]. change (S (String.length d1)) with (String.length (String x d1)).
      rewrite take_length_append.
      exists (String x d1), EmptyString. repeat split; auto. discriminate.
Qed.

(** [revenue_number] is found exactly in the texts that hold a digit, and
    what is found is a decimal text. *)
Lemma search_revenue_shape (s : string) :
  if any Char.isdigit s
  then exists m, search revenue_number s = Some m /\ is_decimal m
  else search revenue_number s = None.
Proof.
  induction s as [|c s IH]; [reflexivity|].
  cbn [any search]. rewrite match_at_revenue.
  destruct (Char.isdigit c) eqn:Hc; cbn [orb].
  - destruct (revenue_at (String c s)) as [n|] eqn:Hn.
    + exists (take n (String c s)). split; [reflexivity|].
      now apply revenue_at_decimal.
    + exfalso. unfold revenue_at in Hn. cbn [span] in Hn. rewrite Hc in Hn.
      destruct (span Char.isdigit s) as [a b].
      destruct b as [|y b]; [discriminate|].
      destruct (Ascii.eqb y "."); discriminate.
  - assert (Hn : revenue_at (String c s) = None).
    { unfold revenue_at. cbn [span]. now rewrite Hc. }
    rewrite Hn. exact IH.
Qed.

(** The same for [employee_number]: what is found is a text of digits. *)
Lemma search_employee_shape (s : string) :
  if any Char.isdigit s
  then exists m, search employee_number s = Some m /\ is_digits m
  else search employee_number s = None.
Proof.
  induction s as [|c s IH]; [reflexivity|].
  cbn [any search]. rewrite match_at_employee.
  destruct (Char.isdigit c) eqn:Hc; cbn [orb].
  - destruct (run_at Char.isdigit (String c s)) as [n|] eqn:Hn.
    + exists (take n (String c s)). split; [reflexivity|].
      now apply run_at_digits.
    + exfalso. unfold run_at in Hn. cbn [span] in Hn. rewrite Hc in Hn.
      destruct (span Char.isdigit s) as [a b]. discriminate.
  - assert (Hn : run_at Char.isdigit (String c s) = None).
    { unfold run_at. cbn [span]. now rewrite Hc. }
    rewrite Hn. exact IH.
Qed.

Lemma digits_value_nonneg (s : string) (acc : Z) :
  (0 <= acc)%Z -> (0 <= digits_value acc s)%Z.
Proof.
  revert acc; induction s as [|c s IH]; intros acc Hacc; cbn [digits_value];
    [exact Hacc|].
  apply IH. unfold Char.digit_value. lia.
Qed.

Lemma digit_not_sign (x : ascii) :
  Char.isdigit x = true -> Ascii.eqb x "-" = false /\ Ascii.eqb x "+" = false.
Proof.
  intros Hx. split.
  - destruct (Ascii.eqb_spec x "-"); [subst; discriminate|reflexivity].
  - destruct (Ascii.eqb_spec x "+"); [subst; discriminate|reflexivity].
Qed.

(** A decimal text is read as a number that is not negative. *)
Lemma parse_number_decimal (m : string) :
  is_decimal m -> exists q, parse_number m = Some q /\ (0 <= q)%Q.
Proof.
  intros (d1 & d2 & Hne & Hd1 & Hd2 & Hm).
  destruct d1 as [|x d1]; [congruence|].
  pose proof Hd1 as Hx. simpl in Hx. apply andb_true_iff in Hx as [Hx _].
  destruct (digit_not_sign x Hx) as [Hminus Hplus].
  assert (Hq : forall z p, (0 <= z)%Z -> (0 <= Qmake z p)%Q)
    by (intros z p Hz; unfold Qle; simpl; lia).
  destruct Hm as [-> | ->].
  - unfold parse_number. rewrite Hminus, Hplus.
    rewrite (span_all _ _ Hd1).
    eexists. split; [reflexivity|].
    apply Hq, digits_value_nonneg; lia.
  - unfold parse_number. cbn [append]. rewrite Hminus, Hplus.
    change (String x (d1 ++ String "." d2)) with (String x d1 ++ String "." d2).
    rewrite (@span_append Char.isdigit (String x d1) (String "." d2) Hd1 eq_refl).
    cbn [Ascii.eqb Bool.eqb]. rewrite (span_all _ _ Hd2).
    eexists. split; [reflexivity|].
    apply Hq, digits_value_nonneg; lia.
Qed.

Lemma is_digits_decimal (m : string) : is_digits m -> is_decimal m.
Proof.
  intros [Hne Hm]. exists m, EmptyString. repeat split; auto.
Qed.

Lemma float64_overflow_pos : (0 < float64_overflow)%Z.
Proof. reflexivity. Qed.

(** A value that is not negative is held as itself or as the positive
    infinity. *)
Lemma stored_nonneg (q : Q) :
  (0 <= q)%Q -> stored q = Inf \/ stored q = Num q.
Proof.
  intros Hq. unfold stored.
  destruct (Qle_bool (inject_Z float64_overflow) q); [now left|].
  destruct (Qle_bool q (inject_Z (- float64_overflow))) eqn:Hneg; [|now right].
  apply Qle_bool_iff in Hneg. exfalso.
  pose proof float64_overflow_pos as Hpos.
  unfold Qle in Hq, Hneg. cbn [Qnum Qden inject_Z] in Hq, Hneg.
  assert (Hden : (0 < Z.pos (Qden q))%Z) by lia. nia.
Qed.

(** A whole number below the bound of [float64] is held as itself. *)
Lemma stored_whole (z : Z) :
  (0 <= z < float64_overflow)%Z -> stored (Qmake z 1) = Num (Qmake z 1).
Proof.
  intros [Hz Hlt]. unfold stored.
  destruct (Qle_bool (inject_Z float64_overflow) (Qmake z 1)) eqn:Hbig.
  { apply Qle_bool_iff in Hbig. unfold Qle in Hbig.
    cbn [Qnum Qden inject_Z] in Hbig. lia. }
  destruct (Qle_bool (Qmake z 1) (inject_Z (- float64_overflow))) eqn:Hneg;
    [|reflexivity].
  apply Qle_bool_iff in Hneg. unfold Qle in Hneg.
  cbn [Qnum Qden inject_Z] in Hneg. lia.
Qed.

Lemma digit_value_range (c : ascii) :
  Char.isdigit c = true -> (0 <= Char.digit_value c <= 9)%Z.
Proof.
  unfold Char.isdigit, Char.digit_value. intros H.
  apply andb_true_iff in H as [H1 H2].
  apply Nat.leb_le in H1. apply Nat.leb_le in H2. lia.
Qed.

Lemma digits_value_bound (s : string) (acc : Z) :
  all Char.isdigit s = true ->
  (digits_value acc s < (acc + 1) * 10 ^ Z.of_nat (String.length s))%Z.
Proof.
  revert acc; induction s as [|c s IH]; intros acc Hs.
  - cbn [digits_value String.length]. change (10 ^ Z.of_nat 0)%Z with 1%Z. lia.
  - simpl in Hs. apply andb_true_iff in Hs as [Hc Hs].
    cbn [digits_value]. specialize (IH (10 * acc + Char.digit_value c)%Z Hs).
    change (String.length (String c s)) with (S (String.length s)).
    rewrite Nat2Z.inj_succ, Z.pow_succ_r by lia.
    pose proof (digit_value_range c Hc) as Hr.
    assert (Hp : (0 < 10 ^ Z.of_nat (String.length s))%Z)
      by (apply Z.pow_pos_nonneg; lia).
    nia.
Qed.

(** Fifteen digits at most write a whole number that [float64] holds
    as it is. *)
Lemma digits_value_exact (ds : string) :
  all Char.isdigit ds = true -> String.length ds <= 15 ->
  (0 <= digits_value 0 ds < 2 ^ 53)%Z.
Proof.
  intros Hds Hlen. split; [apply digits_value_nonneg; lia|].
  pose proof (digits_value_bound ds 0 Hds) as Hb.
  assert (Hpow : (10 ^ Z.of_nat (String.length ds) <= 10 ^ 15)%Z)
    by (apply Z.pow_le_mono_r; lia).
  assert (H15 : (10 ^ 15 < 2 ^ 53)%Z) by reflexivity.
  lia.
Qed.

End SearchFacts.

(* ================================================================= *)
(** ** Assignment to a column *)

Section AssignFacts.

Variable f : cell -> result cell.
Variable g : cell -> cell.

Lemma map_result_pure {A B : Type} (h : A -> result B) (h' : A -> B)
      (xs : list A) :
  (forall x, In x xs -> h x = Return (h' x)) ->
  map_result h xs = Return (map h' xs).
Proof.
  induction xs as [|x xs IH]; intros H; [reflexivity|].
  simpl. rewrite (H x (or_introl eq_refl)). simpl.
  rewrite IH; [reflexivity|]. intros y Hy. apply H. now right.
Qed.

Lemma positions_from_ge (col : string) (labels : list string) (i j : nat) :
  In j (positions_from i col labels) -> i <= j.
Proof.
  revert i; induction labels as [|l ls IH]; intros i; simpl; [tauto|].
  destruct (String.eqb l col); simpl.
  - intros [<- | H]; [lia|]. apply IH in H. lia.
  - intros H. apply IH in H. lia.
Qed.

Lemma positions_from_length (col : string) (labels : list string) (i : nat) :
  List.length (positions_from i col labels)
  = count_occ string_dec labels col.
Proof.
  revert i; induction labels as [|l ls IH]; intros i; simpl; [reflexivity|].
  destruct (String.eqb_spec l col) as [E1|E1];
    destruct (string_dec l col) as [E|E]; try congruence; simpl; now rewrite IH.
Qed.

Lemma existsb_positions_small (js : list nat) (i : nat) :
  (forall j, In j js -> i < j) -> existsb (Nat.eqb i) js = false.
Proof.
  intros H. apply not_true_iff_false. intros E.
  apply existsb_exists in E as (j & Hj & E).
  apply Nat.eqb_eq in E. subst. apply H in Hj. lia.
Qed.

Lemma on_positions_skip (js : list nat) (j i : nat) (row : list cell) :
  j < i -> on_positions f (j :: js) i row = on_positions f js i row.
Proof.
  revert i; induction row as [|c row IH]; intros i Hi; [reflexivity|].
  cbn [on_positions existsb].
  destruct (Nat.eqb_spec i j) as [->|_]; [lia|]. cbn [orb].
  now rewrite IH by lia.
Qed.

Lemma on_positions_none (js : list nat) (i : nat) (row : list cell) :
  (forall j, In j js -> j < i) -> on_positions f js i row = Return row.
Proof.
  revert i; induction row as [|c row IH]; intros i Hi; [reflexivity|].
  cbn [on_positions].
  assert (E : existsb (Nat.eqb i) js = false).
  { apply not_true_iff_false. intros E.
    apply existsb_exists in E as (j & Hj & E).
    apply Nat.eqb_eq in E. subst. apply Hi in Hj. lia. }
  rewrite E. simpl. rewrite IH; [reflexivity|].
  intros j Hj. apply Hi in Hj. lia.
Qed.

(** The positions of a label are the cells under it. *)
Lemma on_positions_label (col : string) (labels : list string)
      (row : list cell) (i : nat) :
  (forall c, In c (under col labels row) -> f c = Return (g c)) ->
  on_positions f (positions_from i col labels) i row
  = Return (on_label g col labels row).
Proof.
  revert row i; induction labels as [|l ls IH]; intros row i H.
  - simpl. rewrite on_positions_none; [now destruct row | intros j []].
  - destruct row as [|c row]; [reflexivity|].
    cbn [positions_from on_label under] in *.
    destruct (String.eqb l col).
    + cbn [on_positions existsb]. rewrite Nat.eqb_refl. cbn [orb].
      rewrite (H c (or_introl eq_refl)). simpl.
      rewrite on_positions_skip by lia.
      rewrite IH; [reflexivity|]. intros c' Hc'. apply H. now right.
    + cbn [on_positions].
      rewrite existsb_positions_small.
      * simpl. rewrite IH; [reflexivity | exact H].
      * intros j Hj. apply positions_from_ge in Hj. lia.
Qed.

Lemma assign_label (col : string) (df : DataFrame) :
  In col (columns df) ->
  (forall row c, In row (rows df) -> In c (under col (columns df) row) ->
                 f c = Return (g c)) ->
  assign f col df
  = Return (mkDataFrame (columns df)
              (map (on_label g col (columns df)) (rows df))).
Proof.
  intros Hin H. unfold assign, positions.
  destruct (positions_from 0 col (columns df)) as [|j js] eqn:Hp.
  - exfalso. apply (f_equal (@List.length nat)) in Hp.
    rewrite positions_from_length in Hp. simpl in Hp.
    apply (count_occ_In string_dec) in Hin. lia.
  - rewrite <- Hp.
    rewrite (map_result_pure _ (on_label g col (columns df))); [reflexivity|].
    intros row Hrow. apply on_positions_label. intros c Hc. now apply (H row).
Qed.

End AssignFacts.

Section LabelFacts.

Variable col : string.

Lemma under_on_label (g : cell -> cell) (labels : list string) (row : list cell) :
  under col labels (on_label g col labels row) = map g (under col labels row).
Proof.
  revert row; induction labels as [|l ls IH]; intros [|c row];
    try reflexivity.
  cbn [on_label under]. destruct (String.eqb l col); simpl; now rewrite IH.
Qed.

Lemma on_label_compose (g1 g2 : cell -> cell) (labels : list string)
      (row : list cell) :
  on_label g2 col labels (on_label g1 col labels row)
  = on_label (fun c => g2 (g1 c)) col labels row.
Proof.
  revert row; induction labels as [|l ls IH]; intros [|c row];
    try reflexivity.
  cbn [on_label]. destruct (String.eqb l col); now rewrite IH.
Qed.

Lemma on_label_ext (g1 g2 : cell -> cell) (labels : list string)
      (row : list cell) :
  (forall c, In c (under col labels row) -> g1 c = g2 c) ->
  on_label g1 col labels row = on_label g2 col labels row.
Proof.
  revert row; induction labels as [|l ls IH]; intros [|c row] H;
    try reflexivity.
  cbn [on_label under] in *. destruct (String.eqb l col).
  - rewrite (H c (or_introl eq_refl)), IH; [reflexivity|].
    intros c' Hc'. apply H. now right.
  - now rewrite IH.
Qed.

Lemma on_label_id (labels : list string) (row : list cell) :
  on_label (fun c => c) col labels row = row.
Proof.
  revert row; induction labels as [|l ls IH]; intros [|c row];
    try reflexivity.
  cbn [on_label]. rewrite IH. now destruct (String.eqb l col).
Qed.

Lemma on_label_length (g : cell -> cell) (labels : list string)
      (row : list cell) :
  List.length (on_label g col labels row) = List.length row.
Proof.
  revert row; induction labels as [|l ls IH]; intros [|c row];
    try reflexivity.
  cbn [on_label]. simpl. now rewrite IH.
Qed.

(** The series of a label that stands for one column. *)
Lemma the_series_once (what : exn) (df : DataFrame) :
  count_occ string_dec (columns df) col = 1 ->
  exists j, the_series what col df = Return j.
Proof.
  intros H. unfold the_series, positions.
  rewrite <- (positions_from_length col (columns df) 0) in H.
  destruct (positions_from 0 col (columns df)) as [|j [|j' js]];
    try discriminate.
  now exists j.
Qed.

Lemma the_series_twice (what : exn) (df : DataFrame) :
  2 <= count_occ string_dec (columns df) col ->
  the_series what col df = Raise what.
Proof.
  intros H. unfold the_series, positions.
  rewrite <- (positions_from_length col (columns df) 0) in H.
  destruct (positions_from 0 col (columns df)) as [|j [|j' js]];
    simpl in H; try lia.
  reflexivity.
Qed.

(** A statement [df[col] = op(df[col])] whose operation needs a series
    and always returns. *)
Lemma column_statement (what : exn) (f : cell -> result cell)
      (df : DataFrame) :
  count_occ string_dec (columns df) col = 1 ->
  (forall c, f c = Return (value_of (f c))) ->
  (_ <- the_series what col df ;; assign f col df)%result
  = Return (mkDataFrame (columns df)
              (map (on_label (fun c => value_of (f c)) col (columns df))
                   (rows df))).
Proof.
  intros Hone Hf. destruct (the_series_once what df Hone) as [j ->].
  cbn [bind]. apply assign_label.
  - apply (count_occ_In string_dec). lia.
  - intros row c _ _. apply Hf.
Qed.

End LabelFacts.

Section CellFacts.

Lemma str_replace_returns (old new : string) (c : cell) :
  str_replace old new c = Return (value_of (str_replace old new c)).
Proof. now destruct c. Qed.

Lemma str_extract_returns (pattern : Re.regex) (c : cell) :
  str_extract pattern c = Return (value_of (str_extract pattern c)).
Proof. destruct c; simpl; try reflexivity. now destruct (Re.search pattern s). Qed.

Lemma to_numeric_returns (c : cell) :
  to_numeric c = Return (value_of (to_numeric c)).
Proof. destruct c; simpl; try reflexivity. now destruct (parse_number s). Qed.

(** Lines 90-96 on one text. *)
Lemma revenue_chain (s : string) :
  value_of (to_numeric
    (value_of (str_extract revenue_number
      (value_of (str_replace " " EmptyString
        (value_of (str_replace "$" EmptyString
          (value_of (str_replace "," EmptyString (Str s))))))))))
  = revenue_value s.
Proof.
  unfold revenue_value, revenue_text, numeric_of. cbn [str_replace value_of str_extract].
  destruct (Re.search revenue_number _) as [m|]; cbn [value_of to_numeric];
    [|reflexivity].
  now destruct (parse_number m).
Qed.

(** Lines 100-105 on one text. *)
Lemma employee_chain (s : string) :
  value_of (to_numeric
    (value_of (str_extract employee_number
      (value_of (str_replace " " EmptyString
        (value_of (str_replace "," EmptyString (Str s))))))))
  = employee_value s.
Proof.
  unfold employee_value, employee_text, numeric_of. cbn [str_replace value_of str_extract].
  destruct (Re.search employee_number _) as [m|]; cbn [value_of to_numeric];
    [|reflexivity].
  now destruct (parse_number m).
Qed.

End CellFacts.

(* ================================================================= *)
(** ** The loop over the labels *)

Section CleanColumn.

Variable df : DataFrame.
Variable col : string.

Hypothesis texts :
  forall row c, In row (rows df) -> In c (under col (columns df) row) ->
                exists s, c = Str s.

Lemma astype_str_texts :
  In col (columns df) ->
  assign astype_str col df = Return df.
Proof.
  intros Hin. rewrite (@assign_label astype_str (fun c => c) col df Hin).
  - destruct df as [cols rs]. cbn [columns rows]. f_equal. f_equal.
    rewrite <- (map_id rs) at 2. apply map_ext. intros row. apply on_label_id.
  - intros row c Hrow Hc. destruct (texts row c Hrow Hc) as [s ->]. reflexivity.
Qed.

Ltac statement Hone :=
  unfold replace_in, extract_in, to_numeric_in;
  rewrite column_statement;
  [ cbn [bind columns rows]
  | cbn [columns]; exact Hone
  | first [ apply str_replace_returns | apply str_extract_returns
          | apply to_numeric_returns ] ].

Ltac cells :=
  f_equal; f_equal; rewrite !map_map; apply map_ext_in;
  intros row Hrow; rewrite !on_label_compose; apply on_label_ext;
  intros c Hc; destruct (texts row c Hrow Hc) as [s ->];
  cbn [clean_cell apply_rule].

(** A label with a rule that stands for one column: the rule is applied
    to the texts of that column. *)
Lemma clean_column_rule :
  rule_of col <> NoRule ->
  count_occ string_dec (columns df) col = 1 ->
  clean_column df col
  = Return (mkDataFrame (columns df)
              (map (on_label (clean_cell (rule_of col)) col (columns df))
                   (rows df))).
Proof.
  intros Hrule Hone.
  assert (Hin : In col (columns df)) by (apply (count_occ_In string_dec); lia).
  unfold clean_column, rule_of in *.
  destruct (is_revenue col).
  - rewrite (astype_str_texts Hin). cbn [bind].
    do 5 statement Hone. cells. apply revenue_chain.
  - destruct (is_employee col); [|congruence].
    rewrite (astype_str_texts Hin). cbn [bind].
    do 4 statement Hone. cells. apply employee_chain.
Qed.

(** A label with a rule that stands for several columns: [.str] is asked
    of a frame. *)
Lemma clean_column_twice :
  rule_of col <> NoRule ->
  2 <= count_occ string_dec (columns df) col ->
  clean_column df col = Raise no_str.
Proof.
  intros Hrule Htwice.
  assert (Hin : In col (columns df)) by (apply (count_occ_In string_dec); lia).
  unfold clean_column, rule_of in *.
  destruct (is_revenue col).
  - rewrite (astype_str_texts Hin). cbn [bind]. unfold replace_in.
    now rewrite (the_series_twice _ _ _ Htwice).
  - destruct (is_employee col); [|congruence].
    rewrite (astype_str_texts Hin). cbn [bind]. unfold replace_in.
    now rewrite (the_series_twice _ _ _ Htwice).
Qed.

End CleanColumn.

Lemma clean_column_norule (df : DataFrame) (col : string) :
  rule_of col = NoRule -> clean_column df col = Return df.
Proof.
  unfold clean_column, rule_of.
  destruct (is_revenue col); [discriminate|].
  now destruct (is_employee col).
Qed.

Section CleanedRows.

Lemma cleaned_row_cons (done : list string) (h : string) (hs : list string)
      (s : string) (raw : list string) :
  cleaned_row done (h :: hs) (s :: raw)
  = (if existsb (String.eqb h) done then apply_rule (rule_of h) s else Str s)
      :: cleaned_row done hs raw.
Proof. reflexivity. Qed.

Lemma existsb_snoc (h col : string) (done : list string) :
  existsb (String.eqb h) (done ++ [col])
  = existsb (String.eqb h) done || String.eqb h col.
Proof. rewrite existsb_app. simpl. now rewrite orb_false_r. Qed.

(** A column that is not cleaned yet holds texts. *)
Lemma cleaned_row_texts (done headers : list string) (raw : list string)
      (col : string) (c : cell) :
  existsb (String.eqb col) done = false ->
  In c (under col headers (cleaned_row done headers raw)) ->
  exists s, c = Str s.
Proof.
  intros Hcol. revert raw; induction headers as [|h hs IH]; intros [|s raw];
    try (simpl; tauto).
  rewrite cleaned_row_cons. cbn [under].
  destruct (String.eqb_spec h col) as [->|_]; [|apply IH].
  rewrite Hcol. intros [<- | H]; [now exists s | now apply (IH raw)].
Qed.

(** Cleaning the column of one more label. *)
Lemma cleaned_row_step (done headers : list string) (raw : list string)
      (col : string) :
  existsb (String.eqb col) done = false ->
  on_label (clean_cell (rule_of col)) col headers
           (cleaned_row done headers raw)
  = cleaned_row (done ++ [col]) headers raw.
Proof.
  intros Hcol. revert raw; induction headers as [|h hs IH]; intros [|s raw];
    try reflexivity.
  rewrite !cleaned_row_cons. cbn [on_label]. rewrite IH, existsb_snoc.
  f_equal. destruct (String.eqb_spec h col) as [->|_].
  - rewrite Hcol. reflexivity.
  - now rewrite orb_false_r.
Qed.

(** A label without a rule changes nothing. *)
Lemma cleaned_row_norule (done headers : list string) (raw : list string)
      (col : string) :
  rule_of col = NoRule ->
  cleaned_row (done ++ [col]) headers raw = cleaned_row done headers raw.
Proof.
  intros Hrule. revert raw; induction headers as [|h hs IH]; intros [|s raw];
    try reflexivity.
  rewrite !cleaned_row_cons, IH, existsb_snoc. f_equal.
  destruct (existsb (String.eqb h) done); [reflexivity|].
  destruct (String.eqb_spec h col) as [->|_]; [|reflexivity].
  now rewrite Hrule.
Qed.

Lemma cleaned_row_none (headers : list string) (raw : list string) :
  List.length raw <= List.length headers ->
  cleaned_row [] headers raw = map Str raw.
Proof.
  revert raw; induction headers as [|h hs IH]; intros [|s raw] Hlen;
    try reflexivity; simpl in Hlen; [lia|].
  rewrite cleaned_row_cons. simpl. now rewrite IH by lia.
Qed.

Lemma cleaned_row_all (done headers : list string) (raw : list string) :
  incl headers done ->
  cleaned_row done headers raw = coerce_row headers raw.
Proof.
  revert raw; induction headers as [|h hs IH]; intros [|s raw] Hincl;
    try reflexivity.
  rewrite cleaned_row_cons.
  assert (Hh : existsb (String.eqb h) done = true).
  { apply existsb_exists. exists h. split; [|apply String.eqb_refl].
    apply Hincl. now left. }
  rewrite Hh, IH; [reflexivity|].
  intros x Hx. apply Hincl. now right.
Qed.

End CleanedRows.

Section Loop.

Variable headers : list string.
Variable raws : list (list string).

Let once (h : string) : bool :=
  match rule_of h with
  | NoRule => true
  | _ => count_occ string_dec headers h =? 1
  end.

Lemma not_done_yet (done todo : list string) (col : string) :
  headers = (done ++ col :: todo)%list ->
  (forall h, In h done -> rule_of h <> NoRule ->
             count_occ string_dec headers h = 1) ->
  rule_of col <> NoRule ->
  existsb (String.eqb col) done = false.
Proof.
  intros Hsplit Hinv Hrule. apply not_true_iff_false. intros E.
  apply existsb_exists in E as (h & Hh & E).
  apply String.eqb_eq in E. subst h.
  pose proof (Hinv col Hh Hrule) as Hone.
  rewrite Hsplit, count_occ_app in Hone. simpl in Hone.
  destruct (string_dec col col); [|congruence].
  apply (count_occ_In string_dec) in Hh. lia.
Qed.

(** The loop of lines 87-105, started after the labels [done]. *)
Lemma for_each_clean (todo : list string) :
  forall done : list string,
    headers = (done ++ todo)%list ->
    (forall h, In h done -> rule_of h <> NoRule ->
               count_occ string_dec headers h = 1) ->
    for_each clean_column todo
      (mkDataFrame headers (map (cleaned_row done headers) raws))
    = if forallb once todo
      then Return (mkDataFrame headers
                     (map (cleaned_row (done ++ todo) headers) raws))
      else Raise no_str.
Proof.
  induction todo as [|col todo IH]; intros done Hsplit Hinv.
  - simpl. now rewrite app_nil_r.
  - cbn [for_each forallb].
    assert (Hnext : headers = ((done ++ [col]) ++ todo)%list)
      by (now rewrite <- app_assoc).
    assert (Hin : In col headers)
      by (rewrite Hsplit; apply in_or_app; right; now left).
    destruct (rule_of col) eqn:Hrule.
    1, 2:
      assert (Hr : rule_of col <> NoRule) by congruence;
      pose proof (not_done_yet _ _ _ Hsplit Hinv Hr) as Hfresh;
      assert (Htexts : forall row c,
                 In row (rows (mkDataFrame headers
                                 (map (cleaned_row done headers) raws))) ->
                 In c (under col headers row) -> exists s, c = Str s)
        by (cbn [rows]; intros row c Hrow Hc;
            apply in_map_iff in Hrow as (raw & <- & _);
            exact (cleaned_row_texts _ _ _ _ _ Hfresh Hc));
      unfold once at 1; rewrite Hrule;
      destruct (Nat.eqb_spec (count_occ string_dec headers col) 1) as [Hone|Hmany];
      [ rewrite (clean_column_rule _ _ Htexts Hr Hone); cbn [bind columns rows andb];
        rewrite map_map;
        rewrite (map_ext _ _ (fun raw => cleaned_row_step done headers raw col Hfresh));
        rewrite Hrule in *;
        rewrite (IH (done ++ [col])%list Hnext);
        [ now rewrite <- app_assoc
        | intros h Hh Hhr; apply in_app_or in Hh as [Hh | [<- | []]];
          [now apply Hinv | exact Hone] ]
      | rewrite (clean_column_twice _ _ Htexts Hr);
        [ reflexivity
        | cbn [columns]; apply (count_occ_In string_dec) in Hin; lia ] ].
    rewrite (clean_column_norule _ _ Hrule). cbn [bind].
    unfold once at 1. rewrite Hrule. cbn [andb].
    rewrite <- (map_ext _ _ (fun raw => cleaned_row_norule done headers raw col Hrule)).
    rewrite (IH (done ++ [col])%list Hnext).
    + now rewrite <- app_assoc.
    + intros h Hh Hhr. apply in_app_or in Hh as [Hh | [<- | []]];
        [now apply Hinv | congruence].
Qed.

(** Lines 84-105 on the rows kept by lines 69-81. *)
Lemma clean_columns_spec :
  Forall (fun raw => List.length raw = List.length headers) raws ->
  clean_columns (mkDataFrame headers (map (map Str) raws))
  = if numeric_once headers
    then Return (mkDataFrame headers (map (coerce_row headers) raws))
    else Raise no_str.
Proof.
  intros Hlen. unfold clean_columns. cbn [columns].
  rewrite <- (map_ext_in (cleaned_row [] headers) (map Str)).
  - rewrite (for_each_clean headers []); [|reflexivity|intros h []].
    change (numeric_once headers) with (forallb once headers). cbn [app].
    destruct (forallb once headers); [|reflexivity].
    f_equal. f_equal. apply map_ext. intros raw.
    apply cleaned_row_all, incl_refl.
  - intros raw Hraw. apply cleaned_row_none.
    rewrite Forall_forall in Hlen. rewrite (Hlen raw Hraw). lia.
Qed.

End Loop.

(* ================================================================= *)
(** ** The whole function *)

Section Scrape.

Lemma max_uniform (n : nat) (ls : list nat) :
  ls <> [] -> Forall (fun l => l = n) ls -> fold_right Nat.max 0 ls = n.
Proof.
  induction ls as [|l ls IH]; [congruence|]. intros _ H.
  inversion H as [|? ? -> Hls]; subst. simpl.
  destruct ls as [|l' ls']; [simpl; lia|].
  rewrite IH; [lia | discriminate | exact Hls].
Qed.

Lemma pad_full (n : nat) (row : list cell) :
  List.length row = n -> pad n row = row.
Proof.
  intros <-. unfold pad. rewrite Nat.sub_diag. apply app_nil_r.
Qed.

(** Line 84 on rows that are as long as the header. *)
Lemma DataFrame_of_uniform (headers : list string) (data : list (list string)) :
  Forall (fun raw => List.length raw = List.length headers) data ->
  DataFrame_of data headers = Return (mkDataFrame headers (map (map Str) data)).
Proof.
  intros H. unfold DataFrame_of. destruct data as [|r rs]; [reflexivity|].
  rewrite (max_uniform (List.length headers)).
  - rewrite Nat.eqb_refl. f_equal. f_equal. apply map_ext_in.
    intros raw Hraw. apply pad_full. rewrite length_map.
    rewrite Forall_forall in H. now apply H.
  - discriminate.
  - apply Forall_forall. intros l Hl.
    apply in_map_iff in Hl as (raw & <- & Hraw).
    rewrite Forall_forall in H. now apply H.
Qed.

Lemma extract_rows_lengths (table : PageElement) (headers : list string) :
  Forall (fun raw => List.length raw = List.length headers)
         (extract_rows table headers).
Proof.
  apply Forall_forall. intros raw H. unfold extract_rows in H.
  apply filter_In in H as [_ H]. now apply Nat.eqb_eq.
Qed.

(** [scrape_companies_data] on a parsed page: it returns, with the value
    and the messages of [scrape_outcome]. *)
Lemma scrape_outcome_spec (soup : PageElement) (u : ui) :
  scrape_companies_data (Parsed soup) u
  = (Return (fst (scrape_outcome soup)), (u ++ snd (scrape_outcome soup))%list).
Proof.
  unfold scrape_companies_data, scrape_outcome, try_except, bindM, lift, parse,
    scrape_page.
  destruct (find_all ["table"] (Some "wikitable sortable") soup) as [|table rest].
  - reflexivity.
  - unfold bindM, lift. destruct (find "tr" table) as [header_row|].
    + rewrite (DataFrame_of_uniform _ _ (extract_rows_lengths table _)).
      rewrite (clean_columns_spec _ _ (extract_rows_lengths table _)).
      destruct (numeric_once (extract_headers header_row)).
      * cbn. now rewrite app_nil_r.
      * reflexivity.
    + reflexivity.
Qed.

(** [scrape_companies_data] when the request fails. *)
Lemma scrape_failed (e : exn) (u : ui) :
  scrape_companies_data (Failed e) u
  = (Return None,
     (u ++ [("Error scraping data: " ++ str_exn e)%string])%list).
Proof. reflexivity. Qed.

End Scrape.

(* ================================================================= *)
(** ** Citation markers and whitespace *)

Section Markers.

Import Str.

Lemma digit_not_space (c : ascii) :
  Char.isdigit c = true -> Char.isspace c = false.
Proof.
  unfold Char.isdigit, Char.isspace. intros H.
  apply andb_true_iff in H as [H1 H2].
  apply Nat.leb_le in H1, H2.
  repeat rewrite orb_false_iff. repeat split.
  - apply andb_false_iff. right. apply Nat.leb_gt. lia.
  - apply andb_false_iff. right. apply Nat.leb_gt. lia.
  - apply Nat.eqb_neq. lia.
  - apply Nat.eqb_neq. lia.
Qed.

Lemma citation_at_bound (s : string) (n : nat) :
  citation_at s = Some n -> n <= String.length s.
Proof.
  unfold citation_at. destruct s as [|c r]; [discriminate|].
  destruct (Ascii.eqb c "["); [|discriminate].
  pose proof (span_spec Char.isdigit r) as H.
  destruct (span Char.isdigit r) as [d u]. destruct H as (-> & _ & _).
  destruct d as [|x d]; [discriminate|]. destruct u as [|c2 v]; [discriminate|].
  destruct (Ascii.eqb c2 "]"); [|discriminate].
  intros [= <-]. simpl. rewrite length_append. simpl. lia.
Qed.

(** A match of the citation pattern cannot reach over an opening
    bracket. *)
Lemma citation_at_local (a t : string) :
  a <> EmptyString ->
  citation_at (a ++ String "[" t) = citation_at a.
Proof.
  destruct a as [|c r]; [congruence|]. intros _.
  cbn [append]. unfold citation_at. destruct (Ascii.eqb c "["); [|reflexivity].
  pose proof (span_spec Char.isdigit r) as H.
  destruct (span Char.isdigit r) as [d u]. destruct H as (-> & Hd & Hu).
  destruct u as [|c2 v].
  - rewrite append_nil_r.
    rewrite (span_append Char.isdigit d (String "[" t) Hd eq_refl).
    now destruct d.
  - rewrite append_assoc. cbn [append].
    rewrite (span_append Char.isdigit d (String c2 (v ++ String "[" t)) Hd Hu).
    reflexivity.
Qed.

Lemma citation_at_marker (ds b : string) :
  ds <> EmptyString -> all Char.isdigit ds = true ->
  citation_at (String "[" (ds ++ String "]" b)) = Some (S (S (String.length ds))).
Proof.
  intros Hne Hds. unfold citation_at. cbn [Ascii.eqb Bool.eqb].
  rewrite (span_append Char.isdigit ds (String "]" b) Hds eq_refl).
  destruct ds; [congruence|reflexivity].
Qed.

(** [re.sub] with the citation pattern takes a marker out wherever it
    stands. *)
Lemma sub_citation_marker (a ds b : string) :
  ds <> EmptyString -> all Char.isdigit ds = true ->
  Re.sub citation_marker EmptyString (a ++ String "[" (ds ++ String "]" b))
  = Re.sub citation_marker EmptyString a
    ++ Re.sub citation_marker EmptyString b.
Proof.
  intros Hne Hds. unfold Re.sub.
  rewrite scan_app.
  - f_equal. cbn [scan]. rewrite match_at_citation, citation_at_marker by assumption.
    cbn [append].
    replace (S (String.length ds)) with (String.length (ds ++ String "]" EmptyString))
      by (rewrite length_append; simpl; lia).
    replace (ds ++ String "]" b) with ((ds ++ String "]" EmptyString) ++ b)
      by (rewrite append_assoc; reflexivity).
    apply scan_skip.
  - intros a' Ha'. rewrite !match_at_citation. now apply citation_at_local.
  - intros s n. rewrite match_at_citation. apply citation_at_bound.
  - lia.
Qed.

Lemma run_at_bound (p : ascii -> bool) (s : string) (n : nat) :
  run_at p s = Some n -> n <= String.length s.
Proof.
  unfold run_at. pose proof (span_spec p s) as H.
  destruct (span p s) as [a b]. destruct H as (-> & _ & _). simpl fst.
  destruct a as [|x a]; [discriminate|]. intros [= <-].
  rewrite length_append. cbn [String.length]. lia.
Qed.

Lemma run_at_local (p : ascii -> bool) (a t : string) :
  a <> EmptyString -> stops p t = true ->
  run_at p (a ++ t) = run_at p a.
Proof.
  intros Ha Ht. unfold run_at.
  pose proof (span_spec p a) as H.
  destruct (span p a) as [w u]. destruct H as (-> & Hw & Hu). simpl fst.
  destruct u as [|c v].
  - rewrite append_nil_r. now rewrite (span_append p w t Hw Ht).
  - rewrite append_assoc. cbn [append].
    now rewrite (span_append p w (String c (v ++ t)) Hw Hu).
Qed.

Lemma run_at_stops (p : ascii -> bool) (s : string) :
  s <> EmptyString -> stops p s = true -> run_at p s = None.
Proof.
  destruct s as [|c s]; [congruence|]. intros _ H. simpl in H.
  apply negb_true_iff in H. unfold run_at. cbn [span]. now rewrite H.
Qed.

(** [re.sub] with the whitespace pattern copies a text without
    whitespace, whatever stands around it. *)
Lemma sub_whitespace_around (a m b : string) :
  m <> EmptyString -> any Char.isspace m = false ->
  Re.sub whitespace_run " " (a ++ m ++ b)
  = Re.sub whitespace_run " " a ++ m ++ Re.sub whitespace_run " " b.
Proof.
  intros Hne Hm. unfold Re.sub.
  assert (Hstop : stops Char.isspace (m ++ b) = true).
  { destruct m as [|c m]; [congruence|]. simpl in *.
    apply orb_false_iff in Hm as [Hc _]. now rewrite Hc. }
  rewrite scan_app.
  - f_equal. apply scan_copy. intros x1 x2 -> Hx2.
    rewrite match_at_whitespace. apply run_at_stops.
    + destruct x2; [congruence|discriminate].
    + destruct x2 as [|c x2]; [congruence|]. simpl.
      assert (H : any Char.isspace (String c x2) = false).
      { clear - Hm. induction x1 as [|y x1 IH]; [exact Hm|].
        simpl in Hm. apply orb_false_iff in Hm as [_ Hm]. now apply IH. }
      simpl in H. apply orb_false_iff in H as [Hc _]. now rewrite Hc.
  - intros a' Ha'. rewrite !match_at_whitespace. now apply run_at_local.
  - intros s n. rewrite match_at_whitespace. apply run_at_bound.
  - lia.
Qed.

Lemma marker_no_space (ds : string) :
  all Char.isdigit ds = true ->
  any Char.isspace (String "[" (ds ++ String "]" EmptyString)) = false.
Proof.
  intros Hds. cbn [any]. replace (Char.isspace "[") with false by reflexivity.
  cbn [orb]. induction ds as [|c ds IH]; [reflexivity|].
  simpl in Hds. apply andb_true_iff in Hds as [Hc Hds].
  cbn [append any]. now rewrite (digit_not_space c Hc), IH.
Qed.

End Markers.

(* ================================================================= *)
(** ** The values of a cleaned column *)

Section Values.

Import Str.

Lemma revenue_text_digits (s : string) :
  any Char.isdigit (revenue_text s) = any Char.isdigit s.
Proof.
  unfold revenue_text. rewrite !replace_char.
  now rewrite !any_remove by reflexivity.
Qed.

Lemma employee_text_digits (s : string) :
  any Char.isdigit (employee_text s) = any Char.isdigit s.
Proof.
  unfold employee_text. rewrite !replace_char.
  now rewrite !any_remove by reflexivity.
Qed.

(** The number read from a decimal text is the positive infinity or a
    finite number that is not negative. *)
Lemma numeric_of_decimal (m : string) :
  is_decimal m ->
  numeric_of (Some m) = Inf
  \/ exists q, numeric_of (Some m) = Num q /\ (0 <= q)%Q.
Proof.
  intros Hm. destruct (parse_number_decimal m Hm) as (q & Hq & Hpos).
  unfold numeric_of. rewrite Hq.
  destruct (stored_nonneg q Hpos) as [-> | ->]; [now left|].
  right. now exists q.
Qed.

(** A text with a digit becomes a number that is not negative, finite or
    not; a text without becomes the missing value. *)
Lemma revenue_value_cases (s : string) :
  if any Char.isdigit s
  then revenue_value s = Inf
       \/ exists q, revenue_value s = Num q /\ (0 <= q)%Q
  else revenue_value s = NaN.
Proof.
  unfold revenue_value. pose proof (search_revenue_shape (revenue_text s)) as H.
  rewrite revenue_text_digits in H. destruct (any Char.isdigit s).
  - destruct H as (m & -> & Hm). now apply numeric_of_decimal.
  - now rewrite H.
Qed.

Lemma employee_value_cases (s : string) :
  if any Char.isdigit s
  then employee_value s = Inf
       \/ exists q, employee_value s = Num q /\ (0 <= q)%Q
  else employee_value s = NaN.
Proof.
  unfold employee_value. pose proof (search_employee_shape (employee_text s)) as H.
  rewrite employee_text_digits in H. destruct (any Char.isdigit s).
  - destruct H as (m & -> & Hm). now apply numeric_of_decimal, is_digits_decimal.
  - now rewrite H.
Qed.

Lemma apply_rule_cases (r : rule) (s : string) :
  r <> NoRule ->
  if any Char.isdigit s
  then apply_rule r s = Inf
       \/ exists q, apply_rule r s = Num q /\ (0 <= q)%Q
  else apply_rule r s = NaN.
Proof.
  destruct r; intros H; [apply revenue_value_cases
                        | apply employee_value_cases | congruence].
Qed.

Lemma apply_rule_numeric (r : rule) (s : string) :
  r <> NoRule -> is_numeric (apply_rule r s) = true.
Proof.
  intros H. pose proof (apply_rule_cases r s H) as Hc.
  destruct (any Char.isdigit s).
  - now destruct Hc as [-> | (q & -> & _)].
  - now rewrite Hc.
Qed.

(** The cells of a cleaned row under a label are made by its rule. *)
Lemma under_coerce_row (col : string) (headers raw : list string) (c : cell) :
  In c (under col headers (coerce_row headers raw)) ->
  exists s, In s raw /\ c = apply_rule (rule_of col) s.
Proof.
  revert raw; induction headers as [|h hs IH]; intros [|s raw];
    try (simpl; tauto).
  change (coerce_row (h :: hs) (s :: raw))
    with (apply_rule (rule_of h) s :: coerce_row hs raw).
  cbn [under]. destruct (String.eqb_spec h col) as [->|_].
  - intros [<- | H]; [exists s; split; [now left | reflexivity]|].
    destruct (IH raw H) as (s' & Hs' & ->). exists s'. split; [now right | reflexivity].
  - intros H. destruct (IH raw H) as (s' & Hs' & ->).
    exists s'. split; [now right | reflexivity].
Qed.

Lemma coerce_row_length (headers raw : list string) :
  List.length raw = List.length headers ->
  List.length (coerce_row headers raw) = List.length headers.
Proof.
  intros H. unfold coerce_row. rewrite length_map, length_combine. lia.
Qed.

(** The cell of a cleaned row at a position of a label with a rule. *)
Lemma coerce_row_position (col : string) (headers raw : list string)
      (i j : nat) :
  rule_of col <> NoRule ->
  In j (positions_from i col headers) ->
  is_numeric (nth (j - i) (coerce_row headers raw) NaN) = true.
Proof.
  intros Hrule. revert raw i; induction headers as [|h hs IH];
    intros [|s raw] i; try (simpl; tauto).
  - intros _. now destruct (j - i).
  - change (coerce_row (h :: hs) (s :: raw))
      with (apply_rule (rule_of h) s :: coerce_row hs raw).
    cbn [positions_from].
    assert (Hlater : In j (positions_from (S i) col hs) ->
                     is_numeric (nth (j - i) (apply_rule (rule_of h) s
                                                :: coerce_row hs raw) NaN) = true).
    { intros H. pose proof (positions_from_ge _ _ _ _ H) as Hge.
      replace (j - i) with (S (j - S i)) by lia. cbn [nth]. now apply IH. }
    destruct (String.eqb_spec h col) as [->|_]; [|exact Hlater].
    intros [<- | H]; [|now apply Hlater].
    rewrite Nat.sub_diag. cbn [nth]. now apply apply_rule_numeric.
Qed.

End Values.

(* ================================================================= *)
(** ** The filter *)

Section Filter.

Lemma ge_min_numeric (min_revenue : Z) (c : cell) :
  is_numeric c = true -> ge_min min_revenue c = Return (at_least min_revenue c).
Proof. now destruct c. Qed.

Lemma mask_rows {A : Type} (p : A -> bool) (xs : list A) :
  map fst (filter snd (combine xs (map p xs))) = filter p xs.
Proof.
  induction xs as [|x xs IH]; [reflexivity|].
  simpl. destruct (p x); simpl; now rewrite IH.
Qed.

(** Lines 203-204 on a frame whose revenue column is cleaned. *)
Lemma min_revenue_filter_numeric (df filtered_df : DataFrame)
      (min_revenue : Z) (j : nat) :
  In "Revenue (USD millions)" (columns df) ->
  positions "Revenue (USD millions)" filtered_df = [j] ->
  (forall row, In row (rows filtered_df) ->
               is_numeric (nth j row NaN) = true) ->
  min_revenue_filter df filtered_df min_revenue
  = Return (mkDataFrame (columns filtered_df)
              (filter (fun row => at_least min_revenue (nth j row NaN))
                      (rows filtered_df))).
Proof.
  intros Hin Hpos Hnum. unfold min_revenue_filter.
  assert (E : existsb (String.eqb "Revenue (USD millions)") (columns df) = true).
  { apply existsb_exists. eexists. split; [exact Hin | apply String.eqb_refl]. }
  rewrite E. unfold the_column. rewrite Hpos. cbn [bind].
  rewrite (map_result_pure _ (at_least min_revenue)).
  - cbn [bind]. unfold boolean_index. rewrite map_map.
    now rewrite (mask_rows (fun row => at_least min_revenue (nth j row NaN))).
  - intros c Hc. apply in_map_iff in Hc as (row & <- & Hrow).
    apply ge_min_numeric. now apply Hnum.
Qed.

(** The scraped frame is such a frame. *)
Lemma filter_of_scraped (soup : PageElement) (df : DataFrame) :
  fst (scrape_outcome soup) = Some df ->
  In "Revenue (USD millions)" (columns df) ->
  exists j,
    positions "Revenue (USD millions)" df = [j]
    /\ forall row, In row (rows df) -> is_numeric (nth j row NaN) = true.
Proof.
  unfold scrape_outcome.
  destruct (find_all ["table"] (Some "wikitable sortable") soup) as [|table rest];
    [discriminate|].
  destruct (find "tr" table) as [header_row|]; [|discriminate].
  set (headers := extract_headers header_row).
  destruct (numeric_once headers) eqn:Honce; [|discriminate].
  intros [= <-]. cbn [columns rows]. intros Hin.
  assert (Hrule : rule_of "Revenue (USD millions)" <> NoRule) by (vm_compute; congruence).
  assert (Hone : count_occ string_dec headers "Revenue (USD millions)" = 1).
  { unfold numeric_once in Honce. rewrite forallb_forall in Honce.
    specialize (Honce _ Hin).
    destruct (rule_of "Revenue (USD millions)"); try congruence;
      now apply Nat.eqb_eq. }
  unfold positions. cbn [columns].
  rewrite <- (positions_from_length _ headers 0) in Hone.
  destruct (positions_from 0 "Revenue (USD millions)" headers) as [|j [|j' js]] eqn:Hp;
    try discriminate.
  exists j. split; [reflexivity|].
  intros row Hrow. apply in_map_iff in Hrow as (raw & <- & _).
  rewrite <- (Nat.sub_0_r j).
  apply (coerce_row_position "Revenue (USD millions)"); [exact Hrule|].
  rewrite Hp. now left.
Qed.

End Filter.

(* ================================================================= *)
(** ** The properties of the specification *)

(** C1.  On a page whose first sortable table has a header row, the labels
    of the emitted frame are the texts of the header cells in their order,
    every row of the frame has as many cells as there are labels, and the
    rows are, in order, the cleaned rows of the table that have that many
    cells: a row with fewer or with more cells does not appear.  The frame
    is emitted when every label with a rule stands for one column. *)
Theorem rows_match_header
        (soup : PageElement) (u : ui)
        (table : PageElement) (rest : list PageElement)
        (header_row : PageElement) :
  find_all ["table"] (Some "wikitable sortable") soup = table :: rest ->
  find "tr" table = Some header_row ->
  let headers := extract_headers header_row in
  let N := List.length headers in
  let kept := filter (fun raw => List.length raw =? N)
                     (map extract_row (tl (find_all ["tr"] None table))) in
  (numeric_once headers = true ->
   scrape_companies_data (Parsed soup) u
   = (Return (Some (mkDataFrame headers (map (coerce_row headers) kept))), u))
  /\ (forall df u',
         scrape_companies_data (Parsed soup) u = (Return (Some df), u') ->
         columns df = headers
         /\ Forall (fun row => List.length row = N) (rows df)
         /\ rows df = map (coerce_row headers) kept
         /\ Forall (fun raw => List.length raw = N) kept).
Proof.
  intros Htab Hrow headers N kept.
  pose proof (scrape_outcome_spec soup u) as Hspec.
  unfold scrape_outcome in Hspec. rewrite Htab, Hrow in Hspec.
  fold headers in Hspec.
  change (extract_rows table headers) with kept in Hspec.
  assert (Hkept : Forall (fun raw => List.length raw = N) kept)
    by apply extract_rows_lengths.
  split.
  - intros Honce. rewrite Honce in Hspec. cbn [fst snd] in Hspec.
    now rewrite app_nil_r in Hspec.
  - intros df u' Hrun. rewrite Hspec in Hrun.
    destruct (numeric_once headers); cbn [fst snd] in Hrun; [|discriminate].
    injection Hrun as <- _. cbn [columns rows].
    repeat split; try assumption.
    apply Forall_forall. intros row Hin.
    apply in_map_iff in Hin as (raw & <- & Hraw).
    apply coerce_row_length. rewrite Forall_forall in Hkept. now apply Hkept.
Qed.

Lemma rows_match_header_witness :
  scrape_companies_data (Parsed Sample.ragged) []
  = (Return (Some (mkDataFrame ["A"; "B"; "C"] [[Str "x"; Str "y"; Str "z"]])),
     []).
Proof.
  exact (proj1 (rows_match_header Sample.ragged [] _ _ _ eq_refl eq_refl)
               eq_refl).
Defined.

(** C2.  In a column whose label holds "revenue" or "usd" or "employee",
    whatever the case of its letters, the loop body returns and replaces
    every text of the column by what its rule reads in it, on any frame in
    which the label stands for one column of texts.  A text without any
    digit, "N/A" for one, becomes the missing value and nothing is raised;
    under a revenue label "$12,345" becomes the number 12345; under an
    employee label "1,000" becomes the number 1000, and so does
    "1,000 employees", where the number has to be found in the text. *)
Theorem numeric_coercion_examples (df : DataFrame) (col : string) :
  is_revenue col = true \/ is_employee col = true ->
  count_occ string_dec (columns df) col = 1 ->
  (forall row c, In row (rows df) -> In c (under col (columns df) row) ->
                 exists s, c = Str s) ->
  clean_column df col
  = Return (mkDataFrame (columns df)
              (map (on_label (clean_cell (rule_of col)) col (columns df))
                   (rows df)))
  /\ (forall s, Str.any Char.isdigit s = false ->
                clean_cell (rule_of col) (Str s) = NaN)
  /\ clean_cell (rule_of col) (Str "N/A") = NaN
  /\ (is_revenue col = true ->
      clean_cell (rule_of col) (Str "$12,345") = Num (12345 # 1))
  /\ (is_employee col = true ->
      clean_cell (rule_of col) (Str "1,000") = Num (1000 # 1)
      /\ clean_cell (rule_of col) (Str "1,000 employees") = Num (1000 # 1)).
Proof.
  intros Hcol Hone Htexts.
  assert (Hrule : rule_of col <> NoRule).
  { unfold rule_of. destruct (is_revenue col); [congruence|].
    destruct Hcol as [Hcol | Hcol]; [discriminate|]. rewrite Hcol. congruence. }
  assert (Hmissing : forall s, Str.any Char.isdigit s = false ->
                               clean_cell (rule_of col) (Str s) = NaN).
  { intros s Hs. cbn [clean_cell].
    pose proof (apply_rule_cases (rule_of col) s Hrule) as H.
    now rewrite Hs in H. }
  split; [now apply clean_column_rule|].
  split; [exact Hmissing|].
  split; [now apply Hmissing|].
  split.
  - intros Hrev. unfold rule_of. rewrite Hrev. reflexivity.
  - intros Hemp. unfold rule_of. rewrite Hemp.
    destruct (is_revenue col); split; reflexivity.
Qed.

Lemma numeric_coercion_examples_witness :
  clean_column
    (mkDataFrame ["Name"; "Revenue (USD millions)"]
       [[Str "Acme"; Str "$12,345"]; [Str "Apex"; Str "N/A"]])
    "Revenue (USD millions)"
  = Return (mkDataFrame ["Name"; "Revenue (USD millions)"]
              [[Str "Acme"; Num (12345 # 1)]; [Str "Apex"; NaN]])
  /\ clean_column
       (mkDataFrame ["Name"; "Employees"]
          [[Str "Acme"; Str "1,000"]; [Str "Apex"; Str "N/A"];
           [Str "Brio"; Str "1,000 employees"]])
       "Employees"
     = Return (mkDataFrame ["Name"; "Employees"]
                 [[Str "Acme"; Num (1000 # 1)]; [Str "Apex"; NaN];
                  [Str "Brio"; Num (1000 # 1)]]).
Proof.
  split.
  - refine (proj1 (numeric_coercion_examples
                     (mkDataFrame ["Name"; "Revenue (USD millions)"]
                        [[Str "Acme"; Str "$12,345"]; [Str "Apex"; Str "N/A"]])
                     "Revenue (USD millions)" (or_introl eq_refl) eq_refl _)).
    intros row c [<- | [<- | []]] [<- | []]; eexists; reflexivity.
  - refine (proj1 (numeric_coercion_examples
                     (mkDataFrame ["Name"; "Employees"]
                        [[Str "Acme"; Str "1,000"]; [Str "Apex"; Str "N/A"];
                         [Str "Brio"; Str "1,000 employees"]])
                     "Employees" (or_intror eq_refl) eq_refl _)).
    intros row c [<- | [<- | [<- | []]]] [<- | []]; eexists; reflexivity.
Defined.

(** C3.  On a page without a table of class "wikitable sortable" the
    function reports that the table could not be found and returns [None]:
    no frame, neither a partial nor an empty one. *)
Theorem missing_table (soup : PageElement) (u : ui) :
  find_all ["table"] (Some "wikitable sortable") soup = [] ->
  scrape_companies_data (Parsed soup) u
  = (Return None, (u ++ ["Could not find the data table on Wikipedia"])%list).
Proof.
  intros Htab. rewrite scrape_outcome_spec. unfold scrape_outcome.
  now rewrite Htab.
Qed.

Lemma missing_table_witness :
  scrape_companies_data (Parsed Sample.bare) []
  = (Return None, ["Could not find the data table on Wikipedia"]).
Proof. exact (missing_table Sample.bare [] eq_refl). Defined.

(** C4.  The statements that clean a numeric column return for every
    content of its cells: on a frame where the label stands for one column
    of texts they give a frame whose cells under the label are numbers or
    missing values.  A pattern that is not found gives the missing value,
    and so does a text that cannot be read as a number; neither raises. *)
Theorem coercion_never_raises (df : DataFrame) (col : string) :
  rule_of col <> NoRule ->
  count_occ string_dec (columns df) col = 1 ->
  (forall row c, In row (rows df) -> In c (under col (columns df) row) ->
                 exists s, c = Str s) ->
  (exists df',
      clean_column df col = Return df'
      /\ columns df' = columns df
      /\ rows df'
         = map (on_label (clean_cell (rule_of col)) col (columns df)) (rows df)
      /\ forall row c, In row (rows df') ->
                       In c (under col (columns df') row) ->
                       is_numeric c = true)
  /\ (forall pattern s, Re.search pattern s = None ->
                        str_extract pattern (Str s) = Return NaN)
  /\ to_numeric NaN = Return NaN
  /\ (forall m, parse_number m = None -> to_numeric (Str m) = Return NaN).
Proof.
  intros Hrule Hone Htexts. repeat split.
  - eexists. split; [apply (clean_column_rule df col Htexts Hrule Hone)|].
    cbn [columns rows]. repeat split.
    intros row c Hrow Hc. apply in_map_iff in Hrow as (row0 & <- & Hrow0).
    rewrite under_on_label in Hc. apply in_map_iff in Hc as (c0 & <- & Hc0).
    destruct (Htexts row0 c0 Hrow0 Hc0) as [s ->].
    now apply apply_rule_numeric.
  - intros pattern s H. simpl. now rewrite H.
  - intros m H. simpl. now rewrite H.
Qed.

Lemma coercion_never_raises_witness :
  exists df',
    clean_column (mkDataFrame ["Name"; "Employees"]
                    [[Str "Acme"; Str "about 1,200 (2023)"];
                     [Str "Apex"; Str "unknown"]])
                 "Employees"
    = Return df'
    /\ rows df' = [[Str "Acme"; Num (1200 # 1)]; [Str "Apex"; NaN]].
Proof.
  destruct (coercion_never_raises
              (mkDataFrame ["Name"; "Employees"]
                 [[Str "Acme"; Str "about 1,200 (2023)"];
                  [Str "Apex"; Str "unknown"]])
              "Employees")
    as ((df' & Hrun & _ & Hrows & _) & _).
  - vm_compute. congruence.
  - reflexivity.
  - intros row c [<- | [<- | []]] [<- | []]; eexists; reflexivity.
  - exists df'. split; [exact Hrun | exact Hrows].
Defined.

(** C5.  Row extraction takes the citation markers out of a cell: when
    the text of the cell, its whitespace normalised, holds an opening
    bracket, digits and a closing bracket between [a] and [b], the text
    kept is what is kept of [a] followed by what is kept of [b].  A cell
    that reads "123[4]" is "123" in the frame. *)
Theorem citation_markers_removed (td : PageElement) (a ds b : string) :
  ds <> EmptyString ->
  Str.all Char.isdigit ds = true ->
  Re.sub whitespace_run " " (get_text_strip td)
  = a ++ String "[" (ds ++ String "]" b) ->
  cell_text td
  = Re.sub citation_marker EmptyString a ++ Re.sub citation_marker EmptyString b.
Proof.
  intros Hne Hds Htext. unfold cell_text. rewrite Htext.
  now apply sub_citation_marker.
Qed.

Lemma citation_markers_removed_witness :
  cell_text (Sample.td "123[4]") = "123"
  /\ scrape_companies_data (Parsed Sample.cited) []
     = (Return (Some (mkDataFrame ["Rank[1]"; "Name"]
                        [[Str "123"; Str "Acme Corp"]])), []).
Proof.
  split; [|reflexivity].
  exact (citation_markers_removed (Sample.td "123[4]") "123" "4" EmptyString
           ltac:(discriminate) eq_refl eq_refl).
Defined.

(** C6.  Extraction yields a frame that is a function of the page, with
    the rows in the order of the document: when the first sortable table
    has a header row and no numeric label twice, a run returns the frame
    whose rows are the rows of the table after the first, those as long as
    the header, cleaned, one after the other as [find_all] meets them; a
    second run in a row returns that same frame, and so does a run from
    any other state of the user interface.  For every response, failed
    ones included, what is returned does not depend on that state. *)
Theorem extraction_deterministic
        (soup : PageElement) (u1 u2 : ui)
        (table : PageElement) (rest : list PageElement)
        (header_row : PageElement) :
  find_all ["table"] (Some "wikitable sortable") soup = table :: rest ->
  find "tr" table = Some header_row ->
  numeric_once (extract_headers header_row) = true ->
  let headers := extract_headers header_row in
  let df :=
    mkDataFrame headers
      (map (coerce_row headers)
           (filter (fun row => List.length row =? List.length headers)
                   (map extract_row (tl (find_all ["tr"] None table))))) in
  let first := scrape_companies_data (Parsed soup) u1 in
  let second := scrape_companies_data (Parsed soup) (snd first) in
  first = (Return (Some df), u1)
  /\ second = (Return (Some df), u1)
  /\ scrape_companies_data (Parsed soup) u2 = (Return (Some df), u2)
  /\ (forall (r : response) (u u' : ui),
         fst (scrape_companies_data r u) = fst (scrape_companies_data r u')).
Proof.
  intros Htab Hrow Honce headers df first second.
  assert (Hrun : forall u, scrape_companies_data (Parsed soup) u
                           = (Return (Some df), u)).
  { intros u. rewrite scrape_outcome_spec. unfold scrape_outcome.
    rewrite Htab, Hrow. cbv zeta. rewrite Honce.
    cbn [fst snd]. now rewrite app_nil_r. }
  assert (Hfirst : first = (Return (Some df), u1)) by apply Hrun.
  split; [exact Hfirst|]. split.
  - unfold second. rewrite Hfirst. cbn [snd]. apply Hrun.
  - split; [apply Hrun|]. intros [soup' | e] u u'.
    + now rewrite !scrape_outcome_spec.
    + now rewrite !scrape_failed.
Qed.

Lemma extraction_deterministic_witness :
  scrape_companies_data (Parsed Sample.two_revenues) []
  = (Return (Some (mkDataFrame ["Name"; "Revenue (USD millions)"]
                     [[Str "Small"; Num (100 # 1)];
                      [Str "Large"; Num (5000 # 1)]])), [])
  /\ scrape_companies_data (Parsed Sample.two_revenues)
       (snd (scrape_companies_data (Parsed Sample.two_revenues) []))
     = (Return (Some (mkDataFrame ["Name"; "Revenue (USD millions)"]
                        [[Str "Small"; Num (100 # 1)];
                         [Str "Large"; Num (5000 # 1)]])), []).
Proof.
  destruct (extraction_deterministic Sample.two_revenues [] [] _ _ _
              eq_refl eq_refl eq_refl) as (Hfirst & Hsecond & _).
  exact (conj Hfirst Hsecond).
Defined.

(** C7.  The minimum-revenue filter keeps the rows whose revenue is a
    number not below the threshold, in their order, and no other row: on a
    frame whose revenue column is cleaned, the result holds the rows that
    pass [at_least], which are those whose revenue is a finite number at
    or above the threshold or the positive infinity.  Of two rows with
    revenues 100 and 5000, a threshold of 1000 keeps the second. *)
Theorem min_revenue_filter_keeps
        (df filtered_df : DataFrame) (min_revenue : Z) (j : nat) :
  In "Revenue (USD millions)" (columns df) ->
  positions "Revenue (USD millions)" filtered_df = [j] ->
  (forall row, In row (rows filtered_df) -> is_numeric (nth j row NaN) = true) ->
  min_revenue_filter df filtered_df min_revenue
  = Return (mkDataFrame (columns filtered_df)
              (filter (fun row => at_least min_revenue (nth j row NaN))
                      (rows filtered_df)))
  /\ (forall row,
         In row (filter (fun row => at_least min_revenue (nth j row NaN))
                        (rows filtered_df))
         <-> In row (rows filtered_df)
             /\ ((exists q, nth j row NaN = Num q
                            /\ (inject_Z min_revenue <= q)%Q)
                 \/ nth j row NaN = Inf)).
Proof.
  intros Hin Hpos Hnum. split.
  - now apply min_revenue_filter_numeric.
  - intros row. rewrite filter_In. split; intros [Hrow H]; split; try assumption.
    + destruct (nth j row NaN) as [s|q| | |]; try discriminate.
      * left. exists q. split; [reflexivity|]. now apply Qle_bool_iff.
      * now right.
    + destruct H as [(q & -> & Hq) | ->]; [now apply Qle_bool_iff | reflexivity].
Qed.

Lemma min_revenue_filter_keeps_witness :
  min_revenue_filter
    (mkDataFrame ["Name"; "Revenue (USD millions)"]
       [[Str "Small"; Num (100 # 1)]; [Str "Large"; Num (5000 # 1)]])
    (mkDataFrame ["Name"; "Revenue (USD millions)"]
       [[Str "Small"; Num (100 # 1)]; [Str "Large"; Num (5000 # 1)]])
    1000
  = Return (mkDataFrame ["Name"; "Revenue (USD millions)"]
              [[Str "Large"; Num (5000 # 1)]]).
Proof.
  refine (proj1 (min_revenue_filter_keeps
                   (mkDataFrame ["Name"; "Revenue (USD millions)"]
                      [[Str "Small"; Num (100 # 1)]; [Str "Large"; Num (5000 # 1)]])
                   (mkDataFrame ["Name"; "Revenue (USD millions)"]
                      [[Str "Small"; Num (100 # 1)]; [Str "Large"; Num (5000 # 1)]])
                   1000 1 _ eq_refl _)).
  - simpl. tauto.
  - intros row [<- | [<- | []]]; reflexivity.
Defined.




(** C9.  The revenue test comes first: a label that passes it is cleaned
    by the revenue rule, also when it passes the employee test, and the
    employee rule is not applied to it.  The two rules differ, on "$1.5"
    for one. *)
Theorem revenue_rule_first (df : DataFrame) (col : string) :
  is_revenue col = true ->
  is_employee col = true ->
  count_occ string_dec (columns df) col = 1 ->
  (forall row c, In row (rows df) -> In c (under col (columns df) row) ->
                 exists s, c = Str s) ->
  rule_of col = RevenueRule
  /\ clean_column df col
     = Return (mkDataFrame (columns df)
                 (map (on_label (clean_cell RevenueRule) col (columns df))
                      (rows df)))
  /\ apply_rule RevenueRule "$1.5" = Num (15 # 10)
  /\ apply_rule EmployeeRule "$1.5" = Num (1 # 1).
Proof.
  intros Hrev Hemp Hone Htexts.
  assert (Hr : rule_of col = RevenueRule) by (unfold rule_of; now rewrite Hrev).
  repeat split; try assumption.
  rewrite <- Hr. apply clean_column_rule; try assumption. congruence.
Qed.

Lemma revenue_rule_first_witness :
  clean_column (mkDataFrame ["Name"; "Revenue per employee (USD)"]
                  [[Str "Acme"; Str "$1.5"]])
               "Revenue per employee (USD)"
  = Return (mkDataFrame ["Name"; "Revenue per employee (USD)"]
              [[Str "Acme"; Num (15 # 10)]]).
Proof.
  refine (proj1 (proj2 (revenue_rule_first
                          (mkDataFrame ["Name"; "Revenue per employee (USD)"]
                             [[Str "Acme"; Str "$1.5"]])
                          "Revenue per employee (USD)" eq_refl eq_refl eq_refl _))).
  intros row c [<- | []] [<- | []]. eexists; reflexivity.
Defined.

(** C10.  The label made from a header cell keeps its citation markers:
    only whitespace is normalised.  When the text of the cell holds a
    marker between [a] and [b], the label holds the same marker between the
    normalised [a] and the normalised [b]; the same text in a data row
    would lose it. *)
Theorem header_keeps_markers (th : PageElement) (a ds b : string) :
  ds <> EmptyString ->
  Str.all Char.isdigit ds = true ->
  get_text_strip th = a ++ String "[" (ds ++ String "]" b) ->
  header_text th
  = Re.sub whitespace_run " " a
    ++ String "[" (ds ++ String "]" (Re.sub whitespace_run " " b))
  /\ cell_text th
     = Re.sub citation_marker EmptyString (Re.sub whitespace_run " " a)
       ++ Re.sub citation_marker EmptyString (Re.sub whitespace_run " " b).
Proof.
  intros Hne Hds Htext.
  assert (Hsub : Re.sub whitespace_run " " (get_text_strip th)
                 = Re.sub whitespace_run " " a
                   ++ String "[" (ds ++ String "]" (Re.sub whitespace_run " " b))).
  { rewrite Htext.
    pose proof (sub_whitespace_around a (String "[" (ds ++ String "]" EmptyString)) b
                  ltac:(discriminate) (marker_no_space ds Hds)) as H.
    cbn [append] in H. rewrite !append_assoc in H. cbn [append] in H.
    exact H. }
  split.
  - unfold header_text. now rewrite replace_same.
  - unfold cell_text. rewrite Hsub. now apply sub_citation_marker.
Qed.

Lemma header_keeps_markers_witness :
  header_text (Sample.th "Rank[1]") = "Rank[1]"
  /\ cell_text (Sample.th "Rank[1]") = "Rank".
Proof.
  exact (header_keeps_markers (Sample.th "Rank[1]") "Rank" "1" EmptyString
           ltac:(discriminate) eq_refl eq_refl).
Defined.

(* ================================================================= *)
(** ** The scenarios of the specification, run *)

(** Without a column labelled "Revenue (USD millions)" lines 203-204 leave
    the frame as it is. *)
Lemma min_revenue_filter_absent (df filtered_df : DataFrame) (min_revenue : Z) :
  ~ In "Revenue (USD millions)" (columns df) ->
  min_revenue_filter df filtered_df min_revenue = Return filtered_df.
Proof.
  intros Hout. unfold min_revenue_filter.
  destruct (existsb (String.eqb "Revenue (USD millions)") (columns df)) eqn:E;
    [|reflexivity].
  apply existsb_exists in E as (l & Hl & E).
  apply String.eqb_eq in E. subst l. contradiction.
Qed.

(** The end-to-end scenario: one company, revenue and head count read as
    numbers, rank and name left as texts. *)
Example acme_scraped :
  scrape_companies_data (Parsed Sample.acme) []
  = (Return (Some (mkDataFrame
                     ["Rank"; "Name"; "Revenue (USD millions)"; "Employees"]
                     [[Str "1"; Str "Acme Corp";
                       Num (500000 # 1); Num (120000 # 1)]])),
     []).
Proof. reflexivity. Qed.

(** Scraping and then filtering at 1000 keeps the company with 5000. *)
Example two_revenues_filtered :
  match scrape_companies_data (Parsed Sample.two_revenues) [] with
  | (Return (Some df), _) => min_revenue_filter df df 1000
  | _ => Raise (ValueError "no frame")
  end
  = Return (mkDataFrame ["Name"; "Revenue (USD millions)"]
              [[Str "Large"; Num (5000 # 1)]]).
Proof. reflexivity. Qed.

(** A label that passes both tests, scraped. *)
Example both_tests_scraped :
  scrape_companies_data (Parsed Sample.both_tests) []
  = (Return (Some (mkDataFrame ["Name"; "Revenue per employee (USD)"]
                     [[Str "Acme"; Num (15 # 10)]])),
     []).
Proof. reflexivity. Qed.

(** Two revenue columns with one label: [.str] is asked of a frame, the
    exception is caught at line 109 and no frame is returned. *)
Example duplicate_revenue_label :
  scrape_companies_data
    (Parsed (Sample.page [Sample.tr [Sample.th "Revenue"; Sample.th "Revenue"];
                          Sample.tr [Sample.td "1"; Sample.td "2"]])) []
  = (Return None,
     ["Error scraping data: 'DataFrame' object has no attribute 'str'"]).
Proof. reflexivity. Qed.

(** A failed request is reported in the same way. *)
Example request_failed :
  scrape_companies_data (Failed (RequestException "404 Client Error")) []
  = (Return None, ["Error scraping data: 404 Client Error"]).
Proof. reflexivity. Qed.

(* ================================================================= *)
(** ** Further facts on the numbers read from a cell *)

Section Reading.

Import Str.

Lemma remove_append (c : ascii) (a b : string) :
  remove c (a ++ b) = remove c a ++ remove c b.
Proof.
  induction a as [|x a IH]; [reflexivity|]. cbn [append remove].
  destruct (Ascii.eqb x c); [exact IH | now rewrite IH].
Qed.

Lemma remove_absent (c : ascii) (s : string) :
  any (fun x => Ascii.eqb x c) s = false -> remove c s = s.
Proof.
  induction s as [|x s IH]; [reflexivity|]. cbn [any remove].
  intros H. apply orb_false_iff in H as [Hx Hs]. now rewrite Hx, IH.
Qed.

Lemma all_remove (p : ascii -> bool) (c : ascii) (s : string) :
  all p s = true -> all p (remove c s) = true.
Proof.
  induction s as [|x s IH]; [reflexivity|]. cbn [all remove].
  intros H. apply andb_true_iff in H as [Hx Hs].
  destruct (Ascii.eqb x c); [now apply IH|]. cbn [all]. now rewrite Hx, IH.
Qed.

Lemma revenue_text_remove (s : string) :
  revenue_text s = remove " " (remove "$" (remove "," s)).
Proof. unfold revenue_text. now rewrite !replace_char. Qed.

Lemma employee_text_remove (s : string) :
  employee_text s = remove " " (remove "," s).
Proof. unfold employee_text. now rewrite !replace_char. Qed.

Lemma revenue_at_no_digit (c : ascii) (s : string) :
  Char.isdigit c = false -> revenue_at (String c s) = None.
Proof. intros H. unfold revenue_at. cbn [span]. now rewrite H. Qed.

Lemma run_at_no_digit (c : ascii) (s : string) :
  Char.isdigit c = false -> run_at Char.isdigit (String c s) = None.
Proof. intros H. unfold run_at. cbn [span]. now rewrite H. Qed.

(** A search passes over text without digits. *)
Lemma search_revenue_skip (p s : string) :
  any Char.isdigit p = false ->
  Re.search revenue_number (p ++ s) = Re.search revenue_number s.
Proof.
  induction p as [|c p IH]; [reflexivity|]. cbn [any]. intros H.
  apply orb_false_iff in H as [Hc Hp]. cbn [append Re.search].
  now rewrite match_at_revenue, (revenue_at_no_digit c _ Hc), IH.
Qed.

Lemma search_employee_skip (p s : string) :
  any Char.isdigit p = false ->
  Re.search employee_number (p ++ s) = Re.search employee_number s.
Proof.
  induction p as [|c p IH]; [reflexivity|]. cbn [any]. intros H.
  apply orb_false_iff in H as [Hc Hp]. cbn [append Re.search].
  now rewrite match_at_employee, (run_at_no_digit c _ Hc), IH.
Qed.

Lemma search_unfold (r : Re.regex) (s : string) :
  Re.search r s
  = match Re.match_at r s with
    | Some n => Some (take n s)
    | None => match s with
              | EmptyString => None
              | String _ s' => Re.search r s'
              end
    end.
Proof. now destruct s. Qed.

(** At a run of digits the employee pattern finds the run. *)
Lemma search_employee_run (ds r : string) :
  ds <> EmptyString -> all Char.isdigit ds = true ->
  stops Char.isdigit r = true ->
  Re.search employee_number (ds ++ r) = Some ds.
Proof.
  intros Hne Hds Hr. rewrite search_unfold, match_at_employee. unfold run_at.
  rewrite (span_append Char.isdigit ds r Hds Hr). cbn [fst].
  destruct ds as [|x ds]; [congruence|].
  change (S (String.length ds)) with (String.length (String x ds)).
  now rewrite take_length_append.
Qed.

(** At a run of digits the revenue pattern finds the run, and the point
    and the digits behind it when a point follows. *)
Lemma search_revenue_run (d1 r : string) :
  d1 <> EmptyString -> all Char.isdigit d1 = true ->
  stops Char.isdigit r = true ->
  Re.search revenue_number (d1 ++ r)
  = Some (match r with
          | String c v =>
              if Ascii.eqb c "."
              then d1 ++ String "." (fst (span Char.isdigit v))
              else d1
          | EmptyString => d1
          end).
Proof.
  intros Hne Hd1 Hr. rewrite search_unfold, match_at_revenue. unfold revenue_at.
  rewrite (span_append Char.isdigit d1 r Hd1 Hr).
  destruct d1 as [|x d1]; [congruence|].
  destruct r as [|c v].
  - change (S (String.length d1)) with (String.length (String x d1)).
    now rewrite take_length_append.
  - destruct (Ascii.eqb_spec c ".") as [->|_].
    + pose proof (span_spec Char.isdigit v) as H.
      destruct (span Char.isdigit v) as [d2 w]. destruct H as (-> & _ & _).
      cbn [fst]. f_equal.
      change (String "." (d2 ++ w)) with (String "." d2 ++ w).
      rewrite <- append_assoc.
      replace (String.length (String x d1) + S (String.length d2))
        with (String.length (String x d1 ++ String "." d2))
        by (rewrite length_append; reflexivity).
      apply take_length_append.
    + change (S (String.length d1)) with (String.length (String x d1)).
      now rewrite take_length_append.
Qed.

(** The number read from digits, and from digits with a point. *)
Lemma parse_number_digits (ds : string) :
  ds <> EmptyString -> all Char.isdigit ds = true ->
  parse_number ds = Some (Qmake (digits_value 0 ds) 1).
Proof.
  intros Hne Hds. destruct ds as [|x ds]; [congruence|].
  pose proof Hds as Hx. simpl in Hx. apply andb_true_iff in Hx as [Hx _].
  destruct (digit_not_sign x Hx) as [Hminus Hplus].
  unfold parse_number. rewrite Hminus, Hplus, (span_all _ _ Hds).
  cbn [String.length Nat.add Nat.ltb Nat.leb pow10]. now rewrite append_nil_r.
Qed.

Lemma parse_number_point (d1 d2 : string) :
  d1 <> EmptyString -> all Char.isdigit d1 = true ->
  all Char.isdigit d2 = true ->
  parse_number (d1 ++ String "." d2)
  = Some (Qmake (digits_value 0 (d1 ++ d2)) (pow10 (String.length d2))).
Proof.
  intros Hne Hd1 Hd2. destruct d1 as [|x d1]; [congruence|].
  pose proof Hd1 as Hx. simpl in Hx. apply andb_true_iff in Hx as [Hx _].
  destruct (digit_not_sign x Hx) as [Hminus Hplus].
  unfold parse_number. cbn [append]. rewrite Hminus, Hplus.
  change (String x (d1 ++ String "." d2)) with (String x d1 ++ String "." d2).
  rewrite (span_append Char.isdigit (String x d1) (String "." d2) Hd1 eq_refl).
  cbn [Ascii.eqb Bool.eqb]. rewrite (span_all _ _ Hd2).
  cbn [String.length Nat.add Nat.ltb Nat.leb]. reflexivity.
Qed.

(** Fifteen digits at most are held as the whole number they write. *)
Lemma numeric_of_digits (ds : string) :
  ds <> EmptyString -> all Char.isdigit ds = true ->
  String.length ds <= 15 ->
  numeric_of (Some ds) = Num (Qmake (digits_value 0 ds) 1).
Proof.
  intros Hne Hds Hlen. unfold numeric_of.
  rewrite (parse_number_digits ds Hne Hds). apply stored_whole.
  pose proof (digits_value_exact ds Hds Hlen) as Hexact.
  assert (Hbig : (2 ^ 53 < float64_overflow)%Z) by reflexivity. lia.
Qed.

(** Digits, however many, are held as a whole number or as the positive
    infinity. *)
Lemma numeric_of_whole (ds : string) :
  ds <> EmptyString -> all Char.isdigit ds = true ->
  numeric_of (Some ds) = Inf
  \/ exists z, numeric_of (Some ds) = Num (Qmake z 1) /\ (0 <= z)%Z.
Proof.
  intros Hne Hds. unfold numeric_of. rewrite (parse_number_digits ds Hne Hds).
  assert (Hz : (0 <= digits_value 0 ds)%Z) by (apply digits_value_nonneg; lia).
  destruct (stored_nonneg (Qmake (digits_value 0 ds) 1)) as [-> | ->].
  - unfold Qle. simpl. lia.
  - now left.
  - right. eexists. split; [reflexivity | exact Hz].
Qed.

(** What [str.extract] finds in a cleaned text that starts, after text
    without digits, with a run of digits. *)
Lemma employee_found (s p ds r : string) :
  employee_text s = p ++ ds ++ r ->
  any Char.isdigit p = false ->
  ds <> EmptyString -> all Char.isdigit ds = true ->
  stops Char.isdigit r = true ->
  Re.search employee_number (employee_text s) = Some ds.
Proof.
  intros Htext Hp Hne Hds Hr. rewrite Htext.
  now rewrite (search_employee_skip p _ Hp), (search_employee_run ds r Hne Hds Hr).
Qed.

Lemma revenue_found (s p d1 r : string) :
  revenue_text s = p ++ d1 ++ r ->
  any Char.isdigit p = false ->
  d1 <> EmptyString -> all Char.isdigit d1 = true ->
  stops Char.isdigit r = true ->
  Re.search revenue_number (revenue_text s)
  = Some (match r with
          | String c v =>
              if Ascii.eqb c "."
              then d1 ++ String "." (fst (span Char.isdigit v))
              else d1
          | EmptyString => d1
          end).
Proof.
  intros Htext Hp Hne Hd1 Hr. rewrite Htext.
  now rewrite (search_revenue_skip p _ Hp), (search_revenue_run d1 r Hne Hd1 Hr).
Qed.

(** A text of digits, commas and blanks, with the commas and blanks
    taken out. *)
Lemma separators_removed (s : string) :
  all (fun c => Char.isdigit c || Ascii.eqb c "," || Ascii.eqb c " ") s = true ->
  any Char.isdigit s = true ->
  let digits := remove " " (remove "," s) in
  all Char.isdigit digits = true
  /\ digits <> EmptyString
  /\ employee_text s = digits
  /\ revenue_text s = digits.
Proof.
  intros Hall Hany digits.
  assert (Hdigits : all Char.isdigit digits = true).
  { unfold digits. clear Hany. induction s as [|x s IH]; [reflexivity|].
    cbn [all] in Hall. apply andb_true_iff in Hall as [Hx Hs].
    specialize (IH Hs). cbn [remove].
    destruct (Ascii.eqb x ",") eqn:Hc; [exact IH|]. cbn [remove].
    destruct (Ascii.eqb x " ") eqn:Hb; [exact IH|]. cbn [all].
    rewrite !orb_false_r in Hx. rewrite Hx. exact IH. }
  assert (Hne : digits <> EmptyString).
  { intros E. unfold digits in *.
    rewrite <- (any_remove Char.isdigit "," s eq_refl) in Hany.
    rewrite <- (any_remove Char.isdigit " " _ eq_refl) in Hany.
    rewrite E in Hany. discriminate. }
  assert (Hdollar : remove "$" (remove "," s) = remove "," s).
  { apply remove_absent. clear Hany Hdigits Hne digits.
    induction s as [|x s IH]; [reflexivity|].
    cbn [all] in Hall. apply andb_true_iff in Hall as [Hx Hs].
    specialize (IH Hs). cbn [remove].
    destruct (Ascii.eqb x ",") eqn:Hc; [exact IH|]. cbn [any].
    rewrite IH, orb_false_r.
    destruct (Ascii.eqb_spec x "$") as [->|_]; [discriminate|reflexivity]. }
  repeat split; try assumption.
  - apply employee_text_remove.
  - now rewrite revenue_text_remove, Hdollar.
Qed.

End Reading.

(** In an employee column the first run of digits is what [str.extract]
    hands to [pd.to_numeric]: text before it is passed over, and the
    reading stops at the first character that is no digit, a point
    included.  A run of fifteen digits at most becomes the whole number it
    writes; a longer run is held as [pd.to_numeric] holds it, on which
    nothing is said here. *)
Theorem employee_reads_first_run (s p ds r : string) :
  employee_text s = p ++ ds ++ r ->
  Str.any Char.isdigit p = false ->
  ds <> EmptyString ->
  Str.all Char.isdigit ds = true ->
  Str.stops Char.isdigit r = true ->
  Re.search employee_number (employee_text s) = Some ds
  /\ (String.length ds <= 15 ->
      employee_value s = Num (Qmake (digits_value 0 ds) 1)).
Proof.
  intros Htext Hp Hne Hds Hr.
  pose proof (employee_found s p ds r Htext Hp Hne Hds Hr) as Hfound.
  split; [exact Hfound|]. intros Hlen. unfold employee_value.
  rewrite Hfound. now apply numeric_of_digits.
Qed.

Lemma employee_reads_first_run_witness :
  Re.search employee_number (employee_text "about 1,200.5 (2023)") = Some "1200"
  /\ employee_value "about 1,200.5 (2023)" = Num (1200 # 1).
Proof.
  destruct (employee_reads_first_run "about 1,200.5 (2023)" "about" "1200"
              ".5(2023)" eq_refl eq_refl ltac:(discriminate) eq_refl eq_refl)
    as [Hfound Hvalue].
  split; [exact Hfound|]. apply Hvalue. simpl. lia.
Defined.

(** In a revenue column [str.extract] hands to [pd.to_numeric] the first
    run of digits, with the point and the digits behind it when a point
    follows the run at once; a second point ends the reading.  When no
    point follows, a run of fifteen digits at most becomes the whole number
    it writes.  On the value held for a fraction or for a longer run
    nothing is said here. *)
Theorem revenue_reads_first_number (s p d1 r : string) :
  revenue_text s = p ++ d1 ++ r ->
  Str.any Char.isdigit p = false ->
  d1 <> EmptyString ->
  Str.all Char.isdigit d1 = true ->
  Str.stops Char.isdigit r = true ->
  Re.search revenue_number (revenue_text s)
  = Some (match r with
          | String c v =>
              if Ascii.eqb c "."
              then d1 ++ String "." (fst (span Char.isdigit v))
              else d1
          | EmptyString => d1
          end)
  /\ (String.length d1 <= 15 ->
      Str.stops (fun c => Ascii.eqb c ".") r = true ->
      revenue_value s = Num (Qmake (digits_value 0 d1) 1)).
Proof.
  intros Htext Hp Hne Hd1 Hr.
  pose proof (revenue_found s p d1 r Htext Hp Hne Hd1 Hr) as Hfound.
  split; [exact Hfound|]. intros Hlen Hpoint. unfold revenue_value.
  rewrite Hfound. destruct r as [|c v]; [now apply numeric_of_digits|].
  cbn [Str.stops] in Hpoint. apply negb_true_iff in Hpoint. rewrite Hpoint.
  now apply numeric_of_digits.
Qed.

Lemma revenue_reads_first_number_witness :
  Re.search revenue_number (revenue_text "US$ 1.234.567 M") = Some "1.234"
  /\ revenue_value "approx. $12,345 million" = Num (12345 # 1).
Proof.
  split.
  - exact (proj1 (revenue_reads_first_number "US$ 1.234.567 M" "US" "1"
                    ".234.567M" eq_refl eq_refl ltac:(discriminate)
                    eq_refl eq_refl)).
  - apply (proj2 (revenue_reads_first_number "approx. $12,345 million"
                    "approx." "12345" "million" eq_refl eq_refl
                    ltac:(discriminate) eq_refl eq_refl)).
    + simpl. lia.
    + reflexivity.
Defined.

(** Commas and blanks inside a number do not end it: of a text made of
    digits, commas and blanks, both rules hand all the digits to
    [pd.to_numeric] as one run, and fifteen digits at most become the whole
    number they write. *)
Theorem separators_are_ignored (s : string) :
  Str.all (fun c => Char.isdigit c || Ascii.eqb c "," || Ascii.eqb c " ") s
  = true ->
  Str.any Char.isdigit s = true ->
  let digits := Str.remove " " (Str.remove "," s) in
  Re.search employee_number (employee_text s) = Some digits
  /\ Re.search revenue_number (revenue_text s) = Some digits
  /\ (String.length digits <= 15 ->
      employee_value s = Num (Qmake (digits_value 0 digits) 1)
      /\ revenue_value s = Num (Qmake (digits_value 0 digits) 1)).
Proof.
  intros Hall Hany digits.
  destruct (separators_removed s Hall Hany) as (Hdigits & Hne & Hemp & Hrev).
  fold digits in Hdigits, Hne, Hemp, Hrev.
  assert (Hfound_e : Re.search employee_number (employee_text s) = Some digits).
  { apply (employee_found s EmptyString digits EmptyString);
      try assumption; try reflexivity.
    rewrite Hemp. cbn [append]. now rewrite append_nil_r. }
  assert (Hfound_r : Re.search revenue_number (revenue_text s) = Some digits).
  { apply (revenue_found s EmptyString digits EmptyString);
      try assumption; try reflexivity.
    rewrite Hrev. cbn [append]. now rewrite append_nil_r. }
  split; [exact Hfound_e|]. split; [exact Hfound_r|].
  intros Hlen. unfold employee_value, revenue_value.
  rewrite Hfound_e, Hfound_r. split; now apply numeric_of_digits.
Qed.

Lemma separators_are_ignored_witness :
  employee_value "2,100,000" = Num (2100000 # 1)
  /\ revenue_value "2023 500" = Num (2023500 # 1).
Proof.
  split.
  - apply (proj2 (proj2 (separators_are_ignored "2,100,000" eq_refl eq_refl))).
    simpl. lia.
  - apply (proj2 (proj2 (separators_are_ignored "2023 500" eq_refl eq_refl))).
    simpl. lia.
Defined.

(** Text without digits in front of a number changes nothing: a minus
    sign is passed over like any other such text, so a loss is read as the
    same number as a gain. *)
Theorem leading_text_is_ignored (p s : string) :
  Str.any Char.isdigit p = false ->
  revenue_value (p ++ s) = revenue_value s
  /\ employee_value (p ++ s) = employee_value s.
Proof.
  intros Hp. unfold revenue_value, employee_value.
  rewrite !revenue_text_remove, !employee_text_remove, !remove_append.
  rewrite search_revenue_skip, search_employee_skip.
  - split; reflexivity.
  - now rewrite !any_remove by reflexivity.
  - now rewrite !any_remove by reflexivity.
Qed.

Lemma leading_text_is_ignored_witness :
  revenue_value "-1,250" = revenue_value "1,250"
  /\ employee_value "-1,250" = employee_value "1,250".
Proof. exact (leading_text_is_ignored "-" "1,250" eq_refl). Defined.

Lemma employee_value_whole (s : string) :
  if Str.any Char.isdigit s
  then employee_value s = Inf
       \/ exists z, employee_value s = Num (Qmake z 1) /\ (0 <= z)%Z
  else employee_value s = NaN.
Proof.
  unfold employee_value. pose proof (search_employee_shape (employee_text s)) as H.
  rewrite employee_text_digits in H. destruct (Str.any Char.isdigit s).
  - destruct H as (m & -> & Hne & Hm). now apply numeric_of_whole.
  - now rewrite H.
Qed.

(** In the emitted frame a cell under a label cleaned by the employee rule
    is the missing value, a whole number that is not negative, or the
    positive infinity, which stands for digits beyond the range of
    [float64]: what stands behind a point is never read. *)
Theorem employee_counts_are_whole
        (soup : PageElement) (u u' : ui) (df : DataFrame) :
  scrape_companies_data (Parsed soup) u = (Return (Some df), u') ->
  forall row col c,
    In row (rows df) ->
    rule_of col = EmployeeRule ->
    In c (under col (columns df) row) ->
    c = NaN \/ c = Inf \/ exists z, c = Num (Qmake z 1) /\ (0 <= z)%Z.
Proof.
  intros Hrun row col c Hrow Hrule Hc.
  rewrite scrape_outcome_spec in Hrun. unfold scrape_outcome in Hrun.
  destruct (find_all ["table"] (Some "wikitable sortable") soup) as [|table rest];
    [discriminate|].
  destruct (find "tr" table) as [header_row|]; [|discriminate].
  destruct (numeric_once (extract_headers header_row)); [|discriminate].
  cbn [fst snd] in Hrun. injection Hrun as <- _. cbn [columns rows] in *.
  apply in_map_iff in Hrow as (raw & <- & _).
  apply under_coerce_row in Hc as (s & _ & ->). rewrite Hrule. cbn [apply_rule].
  pose proof (employee_value_whole s) as H.
  destruct (Str.any Char.isdigit s); [right; exact H | left; exact H].
Qed.

Lemma employee_counts_are_whole_witness :
  Num (120000 # 1) = NaN
  \/ Num (120000 # 1) = Inf
  \/ exists z, Num (120000 # 1) = Num (Qmake z 1) /\ (0 <= z)%Z.
Proof.
  refine (employee_counts_are_whole Sample.acme [] [] _ eq_refl
            [Str "1"; Str "Acme Corp"; Num (500000 # 1); Num (120000 # 1)]
            "Employees" (Num (120000 # 1)) _ eq_refl _).
  - simpl. tauto.
  - simpl. tauto.
Defined.

(* ================================================================= *)
(** ** Further facts on the outcomes of [scrape_companies_data] *)

(** No exception leaves [scrape_companies_data]: whatever the response, it
    returns; either a frame, and then it reports nothing, or [None], and
    then it reports one message. *)
Theorem no_exception_leaves_scrape (r : response) (u : ui) :
  exists out u',
    scrape_companies_data r u = (Return out, u')
    /\ ((exists df, out = Some df) /\ u' = u
        \/ out = None /\ exists msg, u' = (u ++ [msg])%list).
Proof.
  destruct r as [soup | e].
  - rewrite scrape_outcome_spec. do 2 eexists. split; [reflexivity|].
    unfold scrape_outcome.
    destruct (find_all ["table"] (Some "wikitable sortable") soup) as [|table rest];
      [right; split; [reflexivity | eexists; reflexivity]|].
    destruct (find "tr" table) as [header_row|];
      [|right; split; [reflexivity | eexists; reflexivity]].
    destruct (numeric_once (extract_headers header_row)).
    + left. cbn [fst snd]. split; [eexists; reflexivity | apply app_nil_r].
    + right. split; [reflexivity | eexists; reflexivity].
  - rewrite scrape_failed. do 2 eexists. split; [reflexivity|].
    right. split; [reflexivity | eexists; reflexivity].
Qed.

(** A sortable table without any row: [table.find('tr')] is [None], the
    attribute error of line 61 is caught at line 109, and the function
    returns [None] with the message of the exception. *)
Theorem table_without_rows
        (soup : PageElement) (u : ui)
        (table : PageElement) (rest : list PageElement) :
  find_all ["table"] (Some "wikitable sortable") soup = table :: rest ->
  find "tr" table = None ->
  scrape_companies_data (Parsed soup) u
  = (Return None,
     (u ++ ["Error scraping data: 'NoneType' object has no attribute 'find_all'"])%list).
Proof.
  intros Htab Hrow. rewrite scrape_outcome_spec. unfold scrape_outcome.
  now rewrite Htab, Hrow.
Qed.

Lemma table_without_rows_witness :
  scrape_companies_data
    (Parsed (Tag "[document]" []
               [Tag "table" ["wikitable"; "sortable"]
                  [Tag "caption" [] [NavigableString "Soon"]]])) []
  = (Return None,
     ["Error scraping data: 'NoneType' object has no attribute 'find_all'"]).
Proof.
  exact (table_without_rows
           (Tag "[document]" []
              [Tag "table" ["wikitable"; "sortable"]
                 [Tag "caption" [] [NavigableString "Soon"]]])
           [] _ _ eq_refl eq_refl).
Defined.

(** Two columns under one label that has a rule: the loop of lines 87-105
    meets a frame where it needs a series, the exception is caught, and the
    whole table is lost: [None] and one message, whatever the rows hold. *)
Theorem duplicate_numeric_label_fails
        (soup : PageElement) (u : ui)
        (table : PageElement) (rest : list PageElement)
        (header_row : PageElement) (label : string) :
  find_all ["table"] (Some "wikitable sortable") soup = table :: rest ->
  find "tr" table = Some header_row ->
  rule_of label <> NoRule ->
  2 <= count_occ string_dec (extract_headers header_row) label ->
  exists msg,
    scrape_companies_data (Parsed soup) u
    = (Return None, (u ++ [("Error scraping data: " ++ msg)%string])%list).
Proof.
  intros Htab Hrow Hrule Htwice. rewrite scrape_outcome_spec.
  unfold scrape_outcome. rewrite Htab, Hrow.
  destruct (numeric_once (extract_headers header_row)) eqn:Honce.
  - exfalso. unfold numeric_once in Honce. rewrite forallb_forall in Honce.
    assert (Hin : In label (extract_headers header_row))
      by (apply (count_occ_In string_dec); lia).
    specialize (Honce label Hin).
    destruct (rule_of label); try congruence; apply Nat.eqb_eq in Honce; lia.
  - eexists. reflexivity.
Qed.

Lemma duplicate_numeric_label_fails_witness :
  exists msg,
    scrape_companies_data
      (Parsed (Sample.page
                 [Sample.tr [Sample.th "Name"; Sample.th "Revenue";
                             Sample.th "Revenue"];
                  Sample.tr [Sample.td "Acme"; Sample.td "1"; Sample.td "2"]]))
      []
    = (Return None, [("Error scraping data: " ++ msg)%string]).
Proof.
  refine (duplicate_numeric_label_fails
            (Sample.page
               [Sample.tr [Sample.th "Name"; Sample.th "Revenue";
                           Sample.th "Revenue"];
                Sample.tr [Sample.td "Acme"; Sample.td "1"; Sample.td "2"]])
            [] _ _ _ "Revenue" eq_refl eq_refl _ _).
  - vm_compute. congruence.
  - vm_compute. lia.
Defined.

(** The test of line 153 on what was scraped: data is shown when the header
    has a label and some row of the table after the first has as many cells
    as the header, and only then.  A table none of whose rows fits is
    scraped without any message and then treated like a failure. *)
Theorem data_shown_iff
        (soup : PageElement) (u u' : ui)
        (table : PageElement) (rest : list PageElement)
        (header_row : PageElement) (out : option DataFrame) :
  find_all ["table"] (Some "wikitable sortable") soup = table :: rest ->
  find "tr" table = Some header_row ->
  numeric_once (extract_headers header_row) = true ->
  scrape_companies_data (Parsed soup) u = (Return out, u') ->
  u' = u
  /\ (has_data out = true
      <-> extract_headers header_row <> []
          /\ exists tr, In tr (tl (find_all ["tr"] None table))
                        /\ List.length (extract_row tr)
                           = List.length (extract_headers header_row)).
Proof.
  intros Htab Hrow Honce Hrun. rewrite scrape_outcome_spec in Hrun.
  unfold scrape_outcome in Hrun. rewrite Htab, Hrow, Honce in Hrun.
  cbn [fst snd] in Hrun. rewrite app_nil_r in Hrun.
  injection Hrun as <- <-. split; [reflexivity|].
  set (headers := extract_headers header_row).
  unfold has_data, empty. cbn [columns rows]. rewrite length_map.
  rewrite negb_true_iff, orb_false_iff, !Nat.eqb_neq.
  unfold extract_rows. split.
  - intros [Hh Hk]. split; [now destruct headers|].
    destruct (filter _ _) as [|raw kept] eqn:E; [simpl in Hk; lia|].
    assert (Hraw : In raw (raw :: kept)) by now left.
    rewrite <- E in Hraw. apply filter_In in Hraw as [Hraw Hlen].
    apply in_map_iff in Hraw as (tr & <- & Htr).
    exists tr. split; [exact Htr | now apply Nat.eqb_eq].
  - intros [Hh (tr & Htr & Hlen)]. split; [now destruct headers|].
    assert (Hin : In (extract_row tr)
                     (filter (fun row => List.length row =? List.length headers)
                             (map extract_row (tl (find_all ["tr"] None table))))).
    { apply filter_In. split; [now apply in_map | now apply Nat.eqb_eq]. }
    destruct (filter _ _); [contradiction | simpl; lia].
Qed.

Lemma data_shown_iff_witness :
  has_data (Some (mkDataFrame ["A"; "B"; "C"] [[Str "x"; Str "y"; Str "z"]]))
  = true
  <-> ["A"; "B"; "C"] <> []
      /\ exists tr,
           In tr (tl (find_all ["tr"] None
                        (Tag "table" ["wikitable"; "sortable"]
                           [Tag "tbody" []
                              [Sample.tr [Sample.th "A"; Sample.th "B"; Sample.th "C"];
                               Sample.tr [Sample.td "1"; Sample.td "2"];
                               Sample.tr [Sample.td "x"; Sample.td "y"; Sample.td "z"];
                               Sample.tr [Sample.td "p"; Sample.td "q";
                                          Sample.td "r"; Sample.td "s"]]])))
           /\ List.length (extract_row tr) = 3.
Proof.
  exact (proj2 (data_shown_iff Sample.ragged [] [] _ _ _ _
                  eq_refl eq_refl eq_refl eq_refl)).
Defined.

(* ================================================================= *)
(** ** Further facts on the labels *)

Section Tidy.

Import Str.

Lemma lstrip_stops (s : string) : stops Char.isspace (lstrip s) = true.
Proof.
  induction s as [|c s IH]; [reflexivity|]. cbn [lstrip].
  destruct (Char.isspace c) eqn:Hc; [exact IH|]. simpl. now rewrite Hc.
Qed.

Lemma rstrip_ends (s : string) : ends_clean (rstrip s) = true.
Proof.
  induction s as [|c s IH]; [reflexivity|]. cbn [rstrip].
  destruct (rstrip s) as [|d r].
  - destruct (Char.isspace c) eqn:Hc; [reflexivity|]. simpl. now rewrite Hc.
  - exact IH.
Qed.

Lemma rstrip_stops (s : string) :
  stops Char.isspace s = true -> stops Char.isspace (rstrip s) = true.
Proof.
  destruct s as [|c s]; [reflexivity|]. cbn [stops rstrip]. intros Hc.
  destruct (rstrip s).
  - apply negb_true_iff in Hc. rewrite Hc. simpl. now rewrite Hc.
  - exact Hc.
Qed.

Lemma strip_edges (s : string) :
  stops Char.isspace (strip s) = true /\ ends_clean (strip s) = true.
Proof.
  unfold strip. split; [apply rstrip_stops, lstrip_stops | apply rstrip_ends].
Qed.

Lemma ends_clean_append (a b : string) :
  b <> EmptyString -> ends_clean (a ++ b) = ends_clean b.
Proof.
  intros Hb. induction a as [|c a IH]; [reflexivity|]. cbn [append].
  destruct (a ++ b) as [|d t] eqn:E.
  - destruct a; [simpl in E; congruence | discriminate].
  - cbn [ends_clean]. exact IH.
Qed.

Lemma stops_append (p : ascii -> bool) (a b : string) :
  a <> EmptyString -> stops p (a ++ b) = stops p a.
Proof. destruct a; [congruence | reflexivity]. Qed.

Lemma join_pieces (ts : list string) :
  Forall piece ts ->
  stops Char.isspace (join ts) = true /\ ends_clean (join ts) = true
  /\ (ts <> [] -> join ts <> EmptyString).
Proof.
  unfold join. induction ts as [|t ts IH]; intros H.
  - repeat split. congruence.
  - inversion H as [|? ? (Hne & Hs & He) Hts]; subst.
    destruct ts as [|t' ts];
      [repeat split; try assumption; intros _; exact Hne|].
    destruct (IH Hts) as (IHs & IHe & IHne).
    assert (Hrest : String.concat EmptyString (t' :: ts) <> EmptyString)
      by (apply IHne; discriminate).
    change (String.concat EmptyString (t :: t' :: ts))
      with (t ++ String.concat EmptyString (t' :: ts)).
    repeat split.
    + now rewrite stops_append.
    + now rewrite ends_clean_append.
    + intros _ E. destruct t; [congruence | discriminate].
Qed.

Lemma stripped_strings_pieces (e : PageElement) :
  Forall piece (stripped_strings e).
Proof.
  unfold stripped_strings. apply Forall_forall. intros t Ht.
  apply in_flat_map in Ht as (d & _ & Ht).
  destruct d as [text| |]; try contradiction.
  destruct (strip_edges text) as [Hs He].
  destruct (strip text) as [|c r] eqn:E; [contradiction|].
  destruct Ht as [<- | []]. repeat split; [discriminate | exact Hs | exact He].
Qed.

Lemma run_at_space_cons (c : ascii) (s : string) :
  Char.isspace c = true ->
  run_at Char.isspace (String c s)
  = Some (S (String.length (fst (span Char.isspace s)))).
Proof.
  intros Hc. unfold run_at. cbn [span]. rewrite Hc.
  now destruct (span Char.isspace s).
Qed.

Lemma span_space_cons (c : ascii) (s : string) :
  Char.isspace c = true ->
  String.length (fst (span Char.isspace (String c s)))
  = S (String.length (fst (span Char.isspace s))).
Proof.
  intros Hc. cbn [span]. rewrite Hc. now destruct (span Char.isspace s).
Qed.

Lemma span_clean_cons (c : ascii) (s : string) :
  Char.isspace c = false ->
  String.length (fst (span Char.isspace (String c s))) = 0.
Proof. intros Hc. cbn [span]. now rewrite Hc. Qed.

(** [re.sub] with the whitespace pattern on a text that does not end with
    whitespace, started afresh and started inside a run. *)
Lemma sub_whitespace_tidy (s : string) :
  ends_clean s = true ->
  (single_blanks (Re.sub whitespace_run " " s) = true
   /\ (stops Char.isspace s = true ->
       stops Char.isspace (Re.sub whitespace_run " " s) = true))
  /\ (s <> EmptyString ->
      let o := scan (Re.match_at whitespace_run) " "
                    (String.length (fst (span Char.isspace s))) s in
      single_blanks o = true /\ starts_clean o = true).
Proof.
  unfold Re.sub. induction s as [|c s IH]; intros Hend.
  - repeat split. congruence.
  - assert (Hs : ends_clean s = true)
      by (destruct s; [reflexivity | exact Hend]).
    destruct (IH Hs) as ((IHb & IHstop) & IHrun).
    destruct (Char.isspace c) eqn:Hc.
    + assert (Hne : s <> EmptyString).
      { intros ->. simpl in Hend. rewrite Hc in Hend. discriminate. }
      destruct (IHrun Hne) as (Hb & Hstart).
      split; [split|].
      * cbn [scan]. rewrite match_at_whitespace, (run_at_space_cons c s Hc).
        cbn [append single_blanks]. replace (Char.isspace " ") with true by reflexivity.
        now rewrite Hstart, Hb.
      * simpl. rewrite Hc. discriminate.
      * intros _. rewrite (span_space_cons c s Hc). cbn [scan].
        split; assumption.
    + assert (Hcopy : scan (Re.match_at whitespace_run) " " 0 (String c s)
                      = String c (scan (Re.match_at whitespace_run) " " 0 s)).
      { cbn [scan]. rewrite match_at_whitespace.
        now rewrite (run_at_stops Char.isspace (String c s))
          by (try discriminate; simpl; now rewrite Hc). }
      split; [split|].
      * rewrite Hcopy. cbn [single_blanks]. now rewrite Hc, IHb.
      * intros _. rewrite Hcopy. simpl. now rewrite Hc.
      * intros _. rewrite (span_clean_cons c s Hc), Hcopy.
        cbn [single_blanks starts_clean]. now rewrite Hc, IHb.
Qed.

End Tidy.

(** The labels of the emitted frame have their whitespace normalised:
    none at either end, and inside only single blanks, whatever tabs, line
    breaks and runs of blanks the header cells hold. *)
Theorem labels_are_tidy
        (soup : PageElement) (u u' : ui) (df : DataFrame) :
  scrape_companies_data (Parsed soup) u = (Return (Some df), u') ->
  Forall (fun label => tidy label = true) (columns df).
Proof.
  intros Hrun. rewrite scrape_outcome_spec in Hrun. unfold scrape_outcome in Hrun.
  destruct (find_all ["table"] (Some "wikitable sortable") soup) as [|table rest];
    [discriminate|].
  destruct (find "tr" table) as [header_row|]; [|discriminate].
  destruct (numeric_once (extract_headers header_row)); [|discriminate].
  cbn [fst snd] in Hrun. injection Hrun as <- _. cbn [columns].
  apply Forall_forall. intros label Hin. unfold extract_headers in Hin.
  apply in_map_iff in Hin as (th & <- & _).
  unfold header_text. rewrite replace_same.
  destruct (join_pieces _ (stripped_strings_pieces th)) as (Hs & He & _).
  fold (get_text_strip th) in Hs, He.
  destruct (sub_whitespace_tidy (get_text_strip th) He) as ((Hb & Hstop) & _).
  unfold tidy. now rewrite (Hstop Hs), Hb.
Qed.

Lemma labels_are_tidy_witness :
  Forall (fun label => tidy label = true) ["Rank"; "Revenue (USD millions)"].
Proof.
  exact (labels_are_tidy
           (Sample.page
              [Sample.tr [Sample.th "  Rank ";
                          Sample.th "Revenue
                                     (USD   millions) "];
               Sample.tr [Sample.td "1"; Sample.td "$5"]])
           [] []
           (mkDataFrame ["Rank"; "Revenue (USD millions)"]
                        [[Str "1"; Num (5 # 1)]])
           eq_refl).
Defined.

(* ================================================================= *)
(** ** Further facts on [main] *)

Section Main.

Lemma first_label_some (test : string -> bool) (labels : list string)
      (col : string) :
  first_label test labels = Some col <->
  exists before after,
    labels = (before ++ col :: after)%list
    /\ test col = true
    /\ forall l, In l before -> test l = false.
Proof.
  induction labels as [|l labels IH]; cbn [first_label].
  - split; [discriminate|]. intros (before & after & E & _).
    now destruct before.
  - destruct (test l) eqn:Hl.
    + split.
      * intros [= <-]. exists [], labels. repeat split; [exact Hl | intros ? []].
      * intros (before & after & E & Hc & Hb).
        destruct before as [|b before]; [now injection E as -> _|].
        injection E as -> _. rewrite (Hb b (or_introl eq_refl)) in Hl. discriminate.
    + rewrite IH. split.
      * intros (before & after & -> & Hc & Hb).
        exists (l :: before), after. repeat split; [exact Hc|].
        intros x [<- | Hx]; [exact Hl | now apply Hb].
      * intros (before & after & E & Hc & Hb).
        destruct before as [|b before].
        -- injection E as -> _. congruence.
        -- injection E as _ ->. exists before, after. repeat split; [exact Hc|].
           intros x Hx. apply Hb. now right.
Qed.

Lemma first_label_none (test : string -> bool) (labels : list string) :
  first_label test labels = None <-> forall l, In l labels -> test l = false.
Proof.
  induction labels as [|l labels IH]; cbn [first_label].
  - split; [intros _ ? [] | reflexivity].
  - destruct (test l) eqn:Hl.
    + split; [discriminate|]. intros H.
      rewrite (H l (or_introl eq_refl)) in Hl. discriminate.
    + rewrite IH. split.
      * intros H x [<- | Hx]; [exact Hl | now apply H].
      * intros H x Hx. apply H. now right.
Qed.

(** A column of the scraped frame under a label with a rule: the label
    stands for that column alone and the cells are numbers or missing. *)
Lemma scraped_numeric_column (soup : PageElement) (df : DataFrame)
      (col : string) :
  fst (scrape_outcome soup) = Some df ->
  In col (columns df) ->
  rule_of col <> NoRule ->
  count_occ string_dec (columns df) col = 1
  /\ forall row c, In row (rows df) -> In c (under col (columns df) row) ->
                   is_numeric c = true.
Proof.
  unfold scrape_outcome.
  destruct (find_all ["table"] (Some "wikitable sortable") soup) as [|table rest];
    [discriminate|].
  destruct (find "tr" table) as [header_row|]; [|discriminate].
  set (headers := extract_headers header_row).
  destruct (numeric_once headers) eqn:Honce; [|discriminate].
  intros [= <-]. cbn [columns rows]. intros Hin Hrule. split.
  - unfold numeric_once in Honce. rewrite forallb_forall in Honce.
    specialize (Honce _ Hin).
    destruct (rule_of col); try congruence; now apply Nat.eqb_eq.
  - intros row c Hrow Hc. apply in_map_iff in Hrow as (raw & <- & _).
    apply under_coerce_row in Hc as (s & _ & ->).
    now apply apply_rule_numeric.
Qed.

(** A column of the scraped frame under a label without a rule holds the
    texts of the cells. *)
Lemma scraped_text_column (soup : PageElement) (df : DataFrame)
      (col : string) :
  fst (scrape_outcome soup) = Some df ->
  rule_of col = NoRule ->
  forall row c, In row (rows df) -> In c (under col (columns df) row) ->
                exists s, c = Str s.
Proof.
  unfold scrape_outcome.
  destruct (find_all ["table"] (Some "wikitable sortable") soup) as [|table rest];
    [discriminate|].
  destruct (find "tr" table) as [header_row|]; [|discriminate].
  destruct (numeric_once (extract_headers header_row)); [|discriminate].
  intros [= <-]. cbn [columns rows]. intros Hrule row c Hrow Hc.
  apply in_map_iff in Hrow as (raw & <- & _).
  apply under_coerce_row in Hc as (s & _ & ->).
  rewrite Hrule. now exists s.
Qed.

Lemma scraped_frame (soup : PageElement) (u u' : ui) (df : DataFrame) :
  scrape_companies_data (Parsed soup) u = (Return (Some df), u') ->
  fst (scrape_outcome soup) = Some df.
Proof.
  rewrite scrape_outcome_spec. now intros [= -> _].
Qed.

Lemma to_numeric_numeric (c : cell) :
  is_numeric c = true -> to_numeric c = Return c.
Proof. now destruct c. Qed.

Lemma filter_filter {A : Type} (p q : A -> bool) (xs : list A) :
  filter q (filter p xs) = filter (fun x => p x && q x) xs.
Proof.
  induction xs as [|x xs IH]; [reflexivity|]. simpl.
  destruct (p x); simpl; [destruct (q x)|]; now rewrite IH.
Qed.

Lemma positions_in (col : string) (df : DataFrame) (j : nat) :
  positions col df = [j] -> In col (columns df).
Proof.
  intros H. apply (count_occ_In string_dec).
  rewrite <- (positions_from_length col (columns df) 0).
  unfold positions in H. rewrite H. simpl. lia.
Qed.

End Main.

(** The loops that look for a column (revenue, name, industry, employees)
    take the first label that passes their test, and find nothing exactly
    when no label passes it. *)
Theorem picker_takes_first (test : string -> bool) (labels : list string) :
  (first_label test labels = None
   <-> forall l, In l labels -> test l = false)
  /\ (forall col,
         first_label test labels = Some col
         <-> exists before after,
               labels = (before ++ col :: after)%list
               /\ test col = true
               /\ forall l, In l before -> test l = false).
Proof.
  split; [apply first_label_none | intros col; apply first_label_some].
Qed.

Lemma picked_has_rule (df : DataFrame) (col : string) :
  revenue_col df = Some col \/ employees_col df = Some col ->
  In col (columns df) /\ rule_of col <> NoRule.
Proof.
  unfold revenue_col, employees_col. intros Hcol.
  destruct Hcol as [Hcol | Hcol];
    apply first_label_some in Hcol as (before & after & E & Htest & _);
    (split; [rewrite E; apply in_or_app; right; now left|]);
    unfold rule_of; rewrite ?Htest; [congruence|].
  destruct (is_revenue col); congruence.
Qed.

(** The column that the revenue chart takes and the column that the
    employee chart takes are columns that the scraper has cleaned: in the
    scraped frame the label found stands for one column, and its cells are
    numbers or missing values, never texts. *)
Theorem chart_columns_are_numeric
        (soup : PageElement) (u u' : ui) (df : DataFrame) (col : string) :
  scrape_companies_data (Parsed soup) u = (Return (Some df), u') ->
  revenue_col df = Some col \/ employees_col df = Some col ->
  count_occ string_dec (columns df) col = 1
  /\ forall row c, In row (rows df) -> In c (under col (columns df) row) ->
                   is_numeric c = true.
Proof.
  intros Hrun Hcol. apply scraped_frame in Hrun.
  destruct (picked_has_rule df col Hcol) as [Hin Hrule].
  now apply (scraped_numeric_column soup).
Qed.

Lemma chart_columns_are_numeric_witness :
  count_occ string_dec ["Rank"; "Name"; "Revenue (USD millions)"; "Employees"]
            "Employees" = 1.
Proof.
  exact (proj1 (chart_columns_are_numeric Sample.acme [] []
                  (mkDataFrame
                     ["Rank"; "Name"; "Revenue (USD millions)"; "Employees"]
                     [[Str "1"; Str "Acme Corp";
                       Num (500000 # 1); Num (120000 # 1)]])
                  "Employees" eq_refl (or_intror eq_refl))).
Defined.

(** Line 347 converts the employee column once more before charting.  On
    what the filters leave of a scraped frame this changes nothing and
    does not raise. *)
Theorem second_to_numeric_changes_nothing
        (soup : PageElement) (u u' : ui) (df filtered_df : DataFrame)
        (col : string) :
  scrape_companies_data (Parsed soup) u = (Return (Some df), u') ->
  employees_col df = Some col ->
  columns filtered_df = columns df ->
  incl (rows filtered_df) (rows df) ->
  to_numeric_in col filtered_df = Return filtered_df.
Proof.
  intros Hrun Hcol Hcols Hrows.
  destruct (picked_has_rule df col (or_intror Hcol)) as [Hin Hrule].
  destruct (scraped_numeric_column soup df col (scraped_frame soup u u' df Hrun)
              Hin Hrule) as [Hone Hnum].
  unfold to_numeric_in.
  destruct (the_series_once col not_1d filtered_df) as [j ->];
    [now rewrite Hcols|].
  cbn [bind].
  rewrite (assign_label to_numeric (fun c => c)).
  - destruct filtered_df as [cols rs]. cbn [columns rows]. f_equal. f_equal.
    rewrite <- (map_id rs) at 2. apply map_ext. intros row. apply on_label_id.
  - rewrite Hcols. apply (count_occ_In string_dec). lia.
  - intros row c Hrow Hc. apply to_numeric_numeric.
    rewrite Hcols in Hc. exact (Hnum row c (Hrows row Hrow) Hc).
Qed.

Lemma second_to_numeric_changes_nothing_witness :
  to_numeric_in "Employees"
    (mkDataFrame ["Rank"; "Name"; "Revenue (USD millions)"; "Employees"]
       [[Str "1"; Str "Acme Corp"; Num (500000 # 1); Num (120000 # 1)]])
  = Return
      (mkDataFrame ["Rank"; "Name"; "Revenue (USD millions)"; "Employees"]
         [[Str "1"; Str "Acme Corp"; Num (500000 # 1); Num (120000 # 1)]]).
Proof.
  exact (second_to_numeric_changes_nothing Sample.acme [] []
           (mkDataFrame ["Rank"; "Name"; "Revenue (USD millions)"; "Employees"]
              [[Str "1"; Str "Acme Corp"; Num (500000 # 1); Num (120000 # 1)]])
           (mkDataFrame ["Rank"; "Name"; "Revenue (USD millions)"; "Employees"]
              [[Str "1"; Str "Acme Corp"; Num (500000 # 1); Num (120000 # 1)]])
           "Employees" eq_refl eq_refl eq_refl (incl_refl _)).
Defined.

Section Industry.

Lemma industry_filter_selected (df filtered_df : DataFrame)
      (selected_industry : string) (j : nat) :
  In "Industry" (columns df) ->
  positions "Industry" filtered_df = [j] ->
  selected_industry <> "All" ->
  industry_filter df filtered_df selected_industry
  = Return (mkDataFrame (columns filtered_df)
              (filter (fun row => eq_industry selected_industry (nth j row NaN))
                      (rows filtered_df))).
Proof.
  intros Hin Hpos Hsel. unfold industry_filter.
  assert (E : existsb (String.eqb "Industry") (columns df) = true).
  { apply existsb_exists. eexists. split; [exact Hin | apply String.eqb_refl]. }
  rewrite E. apply String.eqb_neq in Hsel. rewrite Hsel. cbn [negb andb].
  unfold the_column. rewrite Hpos. cbn [bind]. unfold boolean_index.
  rewrite map_map.
  now rewrite (mask_rows (fun row => eq_industry selected_industry (nth j row NaN))).
Qed.

Lemma industry_filter_all (df filtered_df : DataFrame) :
  industry_filter df filtered_df "All" = Return filtered_df.
Proof.
  unfold industry_filter. cbn [String.eqb Ascii.eqb Bool.eqb negb andb].
  now rewrite andb_false_r.
Qed.











(** Lines 200-201 as one filter of the rows. *)
Lemma industry_filter_rows
      (df filtered_df : DataFrame) (selected_industry : string) (j : nat) :
  In "Industry" (columns df) ->
  positions "Industry" filtered_df = [j] ->
  industry_filter df filtered_df selected_industry
  = Return (mkDataFrame (columns filtered_df)
              (filter (fun row => String.eqb selected_industry "All"
                                  || eq_industry selected_industry (nth j row NaN))
                      (rows filtered_df))).
Proof.
  intros Hin Hpos. destruct (String.eqb_spec selected_industry "All") as [->|Hsel].
  - rewrite industry_filter_all. destruct filtered_df as [cols rs].
    cbn [columns rows orb]. f_equal. f_equal.
    induction rs as [|r rs IH]; [reflexivity|]. simpl. now rewrite <- IH.
  - cbn [orb]. now apply industry_filter_selected.
Qed.

End Industry.

(** The industry filter keeps, in their order, the rows whose industry is
    the text selected, and every row when "All" is selected, also when
    "All" is the name of an industry in the table. *)
Theorem industry_filter_keeps
        (df filtered_df : DataFrame) (selected_industry : string) (j : nat) :
  In "Industry" (columns df) ->
  positions "Industry" filtered_df = [j] ->
  industry_filter df filtered_df selected_industry
  = Return (mkDataFrame (columns filtered_df)
              (filter (fun row => String.eqb selected_industry "All"
                                  || eq_industry selected_industry (nth j row NaN))
                      (rows filtered_df))).
Proof.
  intros Hin Hpos. destruct (String.eqb_spec selected_industry "All") as [->|Hsel].
  - rewrite industry_filter_all. destruct filtered_df as [cols rs].
    cbn [columns rows orb]. f_equal. f_equal.
    induction rs as [|r rs IH]; [reflexivity|]. simpl. now rewrite <- IH.
  - cbn [orb]. now apply industry_filter_selected.
Qed.

Lemma industry_filter_keeps_witness :
  industry_filter
    (mkDataFrame ["Name"; "Industry"]
       [[Str "Acme"; Str "Retail"]; [Str "Apex"; Str "Energy"];
        [Str "Brio"; Str "Retail"]])
    (mkDataFrame ["Name"; "Industry"]
       [[Str "Acme"; Str "Retail"]; [Str "Apex"; Str "Energy"];
        [Str "Brio"; Str "Retail"]])
    "Retail"
  = Return (mkDataFrame ["Name"; "Industry"]
              [[Str "Acme"; Str "Retail"]; [Str "Brio"; Str "Retail"]]).
Proof.
  refine (industry_filter_keeps
            (mkDataFrame ["Name"; "Industry"]
               [[Str "Acme"; Str "Retail"]; [Str "Apex"; Str "Energy"];
                [Str "Brio"; Str "Retail"]])
            (mkDataFrame ["Name"; "Industry"]
               [[Str "Acme"; Str "Retail"]; [Str "Apex"; Str "Energy"];
                [Str "Brio"; Str "Retail"]])
            "Retail" 1 _ eq_refl).
  simpl. tauto.
Defined.

(** The two filters together keep, in their order, the rows that pass
    both tests: the labels stay, no row is added or moved, and a row whose
    revenue is missing is dropped whatever the threshold. *)
Theorem filters_compose
        (df : DataFrame) (selected_industry : string) (min_revenue : Z)
        (ji jr : nat) :
  positions "Industry" df = [ji] ->
  positions "Revenue (USD millions)" df = [jr] ->
  (forall row, In row (rows df) -> is_numeric (nth jr row NaN) = true) ->
  apply_filters df selected_industry min_revenue
  = Return (mkDataFrame (columns df)
              (filter (fun row =>
                         (String.eqb selected_industry "All"
                          || eq_industry selected_industry (nth ji row NaN))
                         && at_least min_revenue (nth jr row NaN))
                      (rows df))).
Proof.
  intros Hi Hr Hnum. unfold apply_filters.
  rewrite (industry_filter_rows df df selected_industry ji
             (positions_in "Industry" df ji Hi) Hi).
  cbn [bind].
  rewrite (min_revenue_filter_numeric df _ min_revenue jr
             (positions_in "Revenue (USD millions)" df jr Hr)).
  - cbn [columns rows]. now rewrite filter_filter.
  - exact Hr.
  - cbn [rows]. intros row Hrow. apply filter_In in Hrow as [Hrow _].
    now apply Hnum.
Qed.

Lemma filters_compose_witness :
  apply_filters
    (mkDataFrame ["Name"; "Industry"; "Revenue (USD millions)"]
       [[Str "Acme"; Str "Retail"; Num (5000 # 1)];
        [Str "Apex"; Str "Energy"; Num (7000 # 1)];
        [Str "Brio"; Str "Retail"; Num (100 # 1)];
        [Str "Cato"; Str "Retail"; NaN]])
    "Retail" 1000
  = Return (mkDataFrame ["Name"; "Industry"; "Revenue (USD millions)"]
              [[Str "Acme"; Str "Retail"; Num (5000 # 1)]]).
Proof.
  refine (filters_compose
            (mkDataFrame ["Name"; "Industry"; "Revenue (USD millions)"]
               [[Str "Acme"; Str "Retail"; Num (5000 # 1)];
                [Str "Apex"; Str "Energy"; Num (7000 # 1)];
                [Str "Brio"; Str "Retail"; Num (100 # 1)];
                [Str "Cato"; Str "Retail"; NaN]])
            "Retail" 1000 1 2 eq_refl eq_refl _).
  intros row [<- | [<- | [<- | [<- | []]]]]; reflexivity.
Defined.



(* ================================================================= *)
(** ** Further facts on cells, labels and the revenue filter *)

(** Only brackets around digits are taken out of a cell: a text in which
    no citation marker starts is kept as it is after the whitespace is
    normalised, with its brackets around letters, as in a note "[a]". *)
Theorem text_without_markers_is_kept (td : PageElement) :
  marker_free (Re.sub whitespace_run " " (get_text_strip td)) = true ->
  cell_text td = Re.sub whitespace_run " " (get_text_strip td).
Proof.
  unfold cell_text. generalize (Re.sub whitespace_run " " (get_text_strip td)).
  intros s. unfold Re.sub at 1. induction s as [|c s IH]; [reflexivity|].
  intros H. cbn [marker_free] in H. cbn [Str.scan].
  destruct (Re.match_at citation_marker (String c s)); [discriminate|].
  now rewrite (IH H).
Qed.

Lemma text_without_markers_is_kept_witness :
  cell_text (Sample.td "611,289[a] [citation needed]")
  = "611,289[a] [citation needed]".
Proof.
  exact (text_without_markers_is_kept
           (Sample.td "611,289[a] [citation needed]") eq_refl).
Defined.

(** When the labels of the header are pairwise different, the frame is
    emitted, with these labels. *)
Theorem distinct_labels_suffice
        (soup : PageElement) (u : ui)
        (table : PageElement) (rest : list PageElement)
        (header_row : PageElement) :
  find_all ["table"] (Some "wikitable sortable") soup = table :: rest ->
  find "tr" table = Some header_row ->
  NoDup (extract_headers header_row) ->
  exists df,
    scrape_companies_data (Parsed soup) u = (Return (Some df), u)
    /\ columns df = extract_headers header_row.
Proof.
  intros Htab Hrow Hnodup. rewrite scrape_outcome_spec.
  unfold scrape_outcome. rewrite Htab, Hrow.
  assert (Honce : numeric_once (extract_headers header_row) = true).
  { unfold numeric_once. apply forallb_forall. intros h Hh.
    destruct (rule_of h); try reflexivity; apply Nat.eqb_eq;
      now apply NoDup_count_occ'. }
  rewrite Honce. cbn [fst snd]. rewrite app_nil_r.
  eexists. split; reflexivity.
Qed.

Lemma distinct_labels_suffice_witness :
  exists df,
    scrape_companies_data (Parsed Sample.acme) [] = (Return (Some df), [])
    /\ columns df = ["Rank"; "Name"; "Revenue (USD millions)"; "Employees"].
Proof.
  refine (distinct_labels_suffice Sample.acme [] _ _ _ eq_refl eq_refl _).
  repeat constructor; simpl; intuition discriminate.
Defined.

Section RevenueFilter.

(** The cell of a cleaned row at a position of a label with a rule has
    every property that the missing value and the values of the rule
    have. *)
Lemma coerce_row_at (P : cell -> Prop) (col : string)
      (headers raw : list string) (i j : nat) :
  P NaN ->
  (forall s, P (apply_rule (rule_of col) s)) ->
  In j (positions_from i col headers) ->
  P (nth (j - i) (coerce_row headers raw) NaN).
Proof.
  intros Hnan Hrule. revert raw i; induction headers as [|h hs IH];
    intros [|s raw] i; try (simpl; tauto).
  - intros _. now destruct (j - i).
  - change (coerce_row (h :: hs) (s :: raw))
      with (apply_rule (rule_of h) s :: coerce_row hs raw).
    cbn [positions_from].
    assert (Hlater : In j (positions_from (S i) col hs) ->
                     P (nth (j - i) (apply_rule (rule_of h) s
                                       :: coerce_row hs raw) NaN)).
    { intros H. pose proof (positions_from_ge _ _ _ _ H) as Hge.
      replace (j - i) with (S (j - S i)) by lia. cbn [nth]. now apply IH. }
    destruct (String.eqb_spec h col) as [->|_]; [|exact Hlater].
    intros [<- | H]; [|now apply Hlater].
    rewrite Nat.sub_diag. cbn [nth]. apply Hrule.
Qed.

(** The revenue column of a scraped frame: one position, and there numbers
    that are not negative, finite or not, or missing values. *)
Lemma scraped_revenue_column (soup : PageElement) (df : DataFrame) :
  fst (scrape_outcome soup) = Some df ->
  In "Revenue (USD millions)" (columns df) ->
  exists j,
    positions "Revenue (USD millions)" df = [j]
    /\ forall row, In row (rows df) ->
                   nth j row NaN = NaN
                   \/ nth j row NaN = Inf
                   \/ exists q, nth j row NaN = Num q /\ (0 <= q)%Q.
Proof.
  intros Hout Hin.
  destruct (filter_of_scraped soup df Hout Hin) as (j & Hpos & _).
  exists j. split; [exact Hpos|]. revert Hout Hpos. unfold scrape_outcome.
  destruct (find_all ["table"] (Some "wikitable sortable") soup) as [|table rest];
    [discriminate|].
  destruct (find "tr" table) as [header_row|]; [|discriminate].
  destruct (numeric_once (extract_headers header_row)); [|discriminate].
  intros [= <-]. unfold positions. cbn [columns rows]. intros Hpos row Hrow.
  apply in_map_iff in Hrow as (raw & <- & _).
  rewrite <- (Nat.sub_0_r j).
  apply (coerce_row_at
           (fun c => c = NaN \/ c = Inf \/ exists q, c = Num q /\ (0 <= q)%Q)
           "Revenue (USD millions)").
  - now left.
  - intros s. change (rule_of "Revenue (USD millions)") with RevenueRule.
    cbn [apply_rule]. pose proof (revenue_value_cases s) as H.
    destruct (Str.any Char.isdigit s); [right; exact H | left; exact H].
  - rewrite Hpos. now left.
Qed.

Lemma at_least_zero (c : cell) :
  c = NaN \/ c = Inf \/ (exists q, c = Num q /\ (0 <= q)%Q) ->
  at_least 0 c = is_number c.
Proof.
  intros [-> | [-> | (q & -> & Hq)]]; try reflexivity.
  cbn [at_least is_number]. now apply Qle_bool_iff.
Qed.

End RevenueFilter.

(** The revenue filter does not fail on a scraped frame: it never compares
    a text with the threshold.  It returns a frame with the same labels
    whose rows are rows of the scraped frame; without a column labelled
    "Revenue (USD millions)" it returns the frame unchanged. *)
Theorem revenue_filter_never_fails
        (soup : PageElement) (u u' : ui) (df : DataFrame) (min_revenue : Z) :
  scrape_companies_data (Parsed soup) u = (Return (Some df), u') ->
  exists kept,
    min_revenue_filter df df min_revenue = Return kept
    /\ columns kept = columns df
    /\ incl (rows kept) (rows df)
    /\ (~ In "Revenue (USD millions)" (columns df) -> kept = df).
Proof.
  intros Hrun. apply scraped_frame in Hrun.
  destruct (in_dec string_dec "Revenue (USD millions)" (columns df)) as [Hin | Hout].
  - destruct (filter_of_scraped soup df Hrun Hin) as (j & Hpos & Hnum).
    rewrite (min_revenue_filter_numeric df df min_revenue j Hin Hpos Hnum).
    eexists. split; [reflexivity|]. cbn [columns rows]. split; [reflexivity|].
    split; [|contradiction].
    intros row Hrow. now apply filter_In in Hrow as [Hrow _].
  - rewrite (min_revenue_filter_absent df df min_revenue Hout).
    eexists. split; [reflexivity|]. split; [reflexivity|].
    split; [apply incl_refl | reflexivity].
Qed.

Lemma revenue_filter_never_fails_witness :
  (exists kept,
      min_revenue_filter
        (mkDataFrame ["Rank"; "Name"; "Revenue (USD millions)"; "Employees"]
           [[Str "1"; Str "Acme Corp"; Num (500000 # 1); Num (120000 # 1)]])
        (mkDataFrame ["Rank"; "Name"; "Revenue (USD millions)"; "Employees"]
           [[Str "1"; Str "Acme Corp"; Num (500000 # 1); Num (120000 # 1)]])
        1000
      = Return kept
      /\ columns kept = ["Rank"; "Name"; "Revenue (USD millions)"; "Employees"]
      /\ incl (rows kept)
              [[Str "1"; Str "Acme Corp"; Num (500000 # 1); Num (120000 # 1)]])
  /\ min_revenue_filter
       (mkDataFrame ["A"; "B"; "C"] [[Str "x"; Str "y"; Str "z"]])
       (mkDataFrame ["A"; "B"; "C"] [[Str "x"; Str "y"; Str "z"]])
       1000
     = Return (mkDataFrame ["A"; "B"; "C"] [[Str "x"; Str "y"; Str "z"]]).
Proof.
  split.
  - destruct (revenue_filter_never_fails Sample.acme [] []
                (mkDataFrame ["Rank"; "Name"; "Revenue (USD millions)"; "Employees"]
                   [[Str "1"; Str "Acme Corp"; Num (500000 # 1); Num (120000 # 1)]])
                1000 eq_refl) as (kept & Hrun & Hcols & Hrows & _).
    exists kept. exact (conj Hrun (conj Hcols Hrows)).
  - destruct (revenue_filter_never_fails Sample.ragged [] []
                (mkDataFrame ["A"; "B"; "C"] [[Str "x"; Str "y"; Str "z"]])
                1000 eq_refl) as (kept & Hrun & _ & _ & Hsame).
    rewrite Hrun. f_equal. apply Hsame. simpl. intuition discriminate.
Defined.

(** With the threshold 0, the value the input starts with, the revenue
    filter still drops rows: those whose revenue is missing.  It keeps,
    in their order, exactly the rows of the scraped frame whose revenue is
    a number. *)
Theorem default_threshold_drops_missing
        (soup : PageElement) (u u' : ui) (df : DataFrame) :
  scrape_companies_data (Parsed soup) u = (Return (Some df), u') ->
  In "Revenue (USD millions)" (columns df) ->
  exists j,
    positions "Revenue (USD millions)" df = [j]
    /\ min_revenue_filter df df 0
       = Return (mkDataFrame (columns df)
                   (filter (fun row => is_number (nth j row NaN)) (rows df))).
Proof.
  intros Hrun Hin. apply scraped_frame in Hrun.
  destruct (scraped_revenue_column soup df Hrun Hin) as (j & Hpos & Hval).
  exists j. split; [exact Hpos|].
  rewrite (min_revenue_filter_numeric df df 0 j Hin Hpos).
  - f_equal. f_equal. apply filter_ext_in. intros row Hrow.
    apply at_least_zero. now apply Hval.
  - intros row Hrow.
    destruct (Hval row Hrow) as [-> | [-> | (q & -> & _)]]; reflexivity.
Qed.

Lemma default_threshold_drops_missing_witness :
  exists j,
    positions "Revenue (USD millions)"
      (mkDataFrame ["Name"; "Revenue (USD millions)"]
         [[Str "Acme"; Num (5 # 1)]; [Str "Apex"; NaN]]) = [j]
    /\ min_revenue_filter
         (mkDataFrame ["Name"; "Revenue (USD millions)"]
            [[Str "Acme"; Num (5 # 1)]; [Str "Apex"; NaN]])
         (mkDataFrame ["Name"; "Revenue (USD millions)"]
            [[Str "Acme"; Num (5 # 1)]; [Str "Apex"; NaN]])
         0
       = Return (mkDataFrame ["Name"; "Revenue (USD millions)"]
                   (filter (fun row => is_number (nth j row NaN))
                           [[Str "Acme"; Num (5 # 1)]; [Str "Apex"; NaN]])).
Proof.
  refine (default_threshold_drops_missing
            (Sample.page
               [Sample.tr [Sample.th "Name"; Sample.th "Revenue (USD millions)"];
                Sample.tr [Sample.td "Acme"; Sample.td "$5"];
                Sample.tr [Sample.td "Apex"; Sample.td "n/a"]])
            [] []
            (mkDataFrame ["Name"; "Revenue (USD millions)"]
               [[Str "Acme"; Num (5 # 1)]; [Str "Apex"; NaN]])
            eq_refl _).
  simpl. tauto.
Defined.

(** Raising the threshold never brings a row back: every row kept at the
    higher threshold is kept at the lower one. *)
Theorem higher_threshold_keeps_fewer
        (df filtered_df : DataFrame) (low high : Z) (j : nat) :
  In "Revenue (USD millions)" (columns df) ->
  positions "Revenue (USD millions)" filtered_df = [j] ->
  (forall row, In row (rows filtered_df) -> is_numeric (nth j row NaN) = true) ->
  (low <= high)%Z ->
  exists kept_low kept_high,
    min_revenue_filter df filtered_df low = Return kept_low
    /\ min_revenue_filter df filtered_df high = Return kept_high
    /\ incl (rows kept_high) (rows kept_low).
Proof.
  intros Hin Hpos Hnum Hle.
  rewrite !(min_revenue_filter_numeric df filtered_df _ j Hin Hpos Hnum).
  do 2 eexists. split; [reflexivity|]. split; [reflexivity|].
  cbn [rows]. intros row Hrow. apply filter_In in Hrow as [Hrow Hhigh].
  apply filter_In. split; [exact Hrow|].
  destruct (nth j row NaN) as [s|q| | |]; try discriminate; [|reflexivity].
  cbn [at_least] in *. apply Qle_bool_iff in Hhigh. apply Qle_bool_iff.
  apply (Qle_trans _ (inject_Z high)); [|exact Hhigh].
  unfold Qle. simpl. lia.
Qed.

Lemma higher_threshold_keeps_fewer_witness :
  exists kept_low kept_high,
    min_revenue_filter
      (mkDataFrame ["Name"; "Revenue (USD millions)"]
         [[Str "Small"; Num (100 # 1)]; [Str "Large"; Num (5000 # 1)]])
      (mkDataFrame ["Name"; "Revenue (USD millions)"]
         [[Str "Small"; Num (100 # 1)]; [Str "Large"; Num (5000 # 1)]])
      50 = Return kept_low
    /\ min_revenue_filter
         (mkDataFrame ["Name"; "Revenue (USD millions)"]
            [[Str "Small"; Num (100 # 1)]; [Str "Large"; Num (5000 # 1)]])
         (mkDataFrame ["Name"; "Revenue (USD millions)"]
            [[Str "Small"; Num (100 # 1)]; [Str "Large"; Num (5000 # 1)]])
         1000 = Return kept_high
    /\ incl (rows kept_high) (rows kept_low).
Proof.
  refine (higher_threshold_keeps_fewer
            (mkDataFrame ["Name"; "Revenue (USD millions)"]
               [[Str "Small"; Num (100 # 1)]; [Str "Large"; Num (5000 # 1)]])
            (mkDataFrame ["Name"; "Revenue (USD millions)"]
               [[Str "Small"; Num (100 # 1)]; [Str "Large"; Num (5000 # 1)]])
            50 1000 1 _ eq_refl _ _).
  - simpl. tauto.
  - intros row [<- | [<- | []]]; reflexivity.
  - lia.
Defined.
